(** * Triage inference pipeline: a shallow embedding and its properties

    The development follows [backend/services/inference.py],
    [backend/services/routing.py] and [backend/services/explain.py].

    Python values are modelled by the type [pyval]; a Python [str] is a
    [String.string] whose characters are code points below 256; a Python
    [dict] is an association list in insertion order (the order of the keys
    becomes the order of the columns of the one-row table built from it).
    A Python [float] is its exact rational value, or one of the three
    special values; the rounding of a real number to the nearest binary64
    is the parameter [round64] wherever the code performs one.
    Code that can raise returns a [result]. *)

From Stdlib Require Import String Ascii List ZArith QArith Qround Qabs Bool Lia.
From Stdlib Require Import DecimalString Permutation Sorted.
Import ListNotations.

Set Warnings "-register-all".

Open Scope string_scope.
Open Scope Z_scope.

(** ** Exceptions and the error monad *)

Inductive pyerr : Type :=
| KeyError
| TypeError
| ValueError
| OverflowError.

Inductive result (A : Type) : Type :=
| Ok (a : A)
| Raise (e : pyerr).

Arguments Ok {A} a.
Arguments Raise {A} e.

Definition bind {A B : Type} (r : result A) (k : A -> result B) : result B :=
  match r with
  | Ok a => k a
  | Raise e => Raise e
  end.

Declare Scope py_scope.
Delimit Scope py_scope with py.
Notation "x <- r ;; k" := (bind r (fun x => k))
  (at level 61, r at next level, right associativity) : py_scope.
Open Scope py_scope.

Definition returns {A : Type} (r : result A) : Prop :=
  exists a, r = Ok a.

(** ** Python values *)

Inductive pyfloat : Type :=
| FFin (q : Q)
| FPosInf
| FNegInf
| FNaN.

Inductive pyval : Type :=
| VNone
| VBool (b : bool)
| VInt (z : Z)
| VFloat (f : pyfloat)
| VStr (s : string)
| VList (l : list pyval)
| VDict (d : list (string * pyval)).

Definition pydict : Type := list (string * pyval).

Definition is_finite (f : pyfloat) : bool :=
  match f with
  | FFin _ => true
  | _ => false
  end.

(** ** Strings: [str.strip], [str.split(",")], [sub in s] *)

Module PyStr.

(** [str.isspace] on the code points below 256. *)
Definition is_space (c : ascii) : bool :=
  let n := nat_of_ascii c in
  ((9 <=? n) && (n <=? 13) || (28 <=? n) && (n <=? 32)
   || (n =? 133) || (n =? 160))%nat.

Fixpoint lstrip (s : string) : string :=
  match s with
  | EmptyString => EmptyString
  | String c s' => if is_space c then lstrip s' else s
  end.

Fixpoint rstrip (s : string) : string :=
  match s with
  | EmptyString => EmptyString
  | String c s' =>
      match rstrip s' with
      | EmptyString => if is_space c then EmptyString else String c EmptyString
      | r => String c r
      end
  end.

Definition strip (s : string) : string := rstrip (lstrip s).

Definition comma : ascii := ","%char.

(** [s.split(",")]: never empty, [""] splits into [[""]]. *)
Fixpoint split_comma (s : string) : list string :=
  match s with
  | EmptyString => [EmptyString]
  | String c s' =>
      if Ascii.eqb c comma then EmptyString :: split_comma s'
      else
        match split_comma s' with
        | [] => [String c EmptyString]
        | w :: ws => String c w :: ws
        end
  end.

(** [",".join(xs)] *)
Fixpoint join_comma (xs : list string) : string :=
  match xs with
  | [] => EmptyString
  | [x] => x
  | x :: rest => x ++ String comma (join_comma rest)
  end.

(** [sub in s] for two strings: substring containment. *)
Fixpoint contains (sub s : string) : bool :=
  if prefix sub s then true
  else
    match s with
    | EmptyString => false
    | String _ s' => contains sub s'
    end.

(** The string holds a comma. *)
Fixpoint has_comma (s : string) : bool :=
  match s with
  | EmptyString => false
  | String c s' => Ascii.eqb c comma || has_comma s'
  end.

Definition nonempty (s : string) : bool :=
  match s with
  | EmptyString => false
  | _ => true
  end.

End PyStr.

(** ** Dictionaries *)

Fixpoint dict_get (d : pydict) (k : string) : option pyval :=
  match d with
  | [] => None
  | (k', v) :: d' => if String.eqb k k' then Some v else dict_get d' k
  end.

(** [d.get(k, default)] *)
Definition get_default (d : pydict) (k : string) (default : pyval) : pyval :=
  match dict_get d k with
  | Some v => v
  | None => default
  end.

(** [d[k]] *)
Definition dict_index (d : pydict) (k : string) : result pyval :=
  match dict_get d k with
  | Some v => Ok v
  | None => Raise KeyError
  end.

(** [d[k] = v]: an existing key keeps its place, a new key goes last. *)
Fixpoint dict_set (d : pydict) (k : string) (v : pyval) : pydict :=
  match d with
  | [] => [(k, v)]
  | (k', v') :: d' =>
      if String.eqb k k' then (k', v) :: d' else (k', v') :: dict_set d' k v
  end.

(** What [d.pop(k, default)] leaves in [d]. *)
Definition dict_remove (d : pydict) (k : string) : pydict :=
  filter (fun kv => negb (String.eqb k (fst kv))) d.

Definition keys (d : pydict) : list string := map fst d.

Definition mem (k : string) (l : list string) : bool :=
  existsb (String.eqb k) l.

(** ** Builtin conversions and operators *)

Definition bool_to_Z (b : bool) : Z := if b then 1 else 0.

(** [int(x)] of a finite float truncates toward zero. *)
Definition Qtrunc (q : Q) : Z := Z.quot (Qnum q) (Zpos (Qden q)).

(** [round(x)] of a finite float: to the nearest integer, a tie goes to the
    even one. *)
Definition py_round (q : Q) : Z :=
  let f := Qfloor q in
  match (q - inject_Z f ?= 1 # 2)%Q with
  | Lt => f
  | Gt => f + 1
  | Eq => if Z.even f then f else f + 1
  end.

(** [f > n] for a float and an integer literal. *)
Definition float_gt (f : pyfloat) (n : Z) : bool :=
  match f with
  | FFin q => negb (Qle_bool q (inject_Z n))
  | FPosInf => true
  | FNegInf => false
  | FNaN => false
  end.

(** [v > n] on an arbitrary value: only numbers compare with an integer. *)
Definition py_gt (v : pyval) (n : Z) : result bool :=
  match v with
  | VBool b => Ok (bool_to_Z b >? n)
  | VInt z => Ok (z >? n)
  | VFloat f => Ok (float_gt f n)
  | VNone | VStr _ | VList _ | VDict _ => Raise TypeError
  end.

Definition py_eq_str (s : string) (v : pyval) : bool :=
  match v with
  | VStr t => String.eqb s t
  | _ => false
  end.

(** [s in c]: element of a list, substring of a string, key of a dict. *)
Definition py_in (s : string) (c : pyval) : result bool :=
  match c with
  | VList l => Ok (existsb (py_eq_str s) l)
  | VStr t => Ok (PyStr.contains s t)
  | VDict d => Ok (mem s (keys d))
  | VNone | VBool _ | VInt _ | VFloat _ => Raise TypeError
  end.

(** Truth value of a value, as [or] and [not] test it. A NaN is true. *)
Definition truthy (v : pyval) : bool :=
  match v with
  | VNone => false
  | VBool b => b
  | VInt z => negb (z =? 0)
  | VFloat (FFin q) => negb (Qeq_bool q 0)
  | VFloat _ => true
  | VStr s => PyStr.nonempty s
  | VList l => match l with [] => false | _ => true end
  | VDict d => match d with [] => false | _ => true end
  end.

(** [v or d] *)
Definition py_or (v d : pyval) : pyval := if truthy v then v else d.

(** The largest magnitude an [int] may have for [float(int)] not to raise. *)
Definition float_int_bound : Z := 2 ^ 1024 - 2 ^ 970.

(** Builtins of the interpreter that the repository calls and does not
    define: [float(s)] and [int(s)] on a string ([None]: [ValueError]),
    [str(v)] on a value that is not a string, and the rounding of a real
    number to binary64. *)
Class Builtins : Type := {
  float_of_str : string -> option pyfloat;
  int_of_str : string -> option Z;
  str_of_other : pyval -> string;
  round64 : Q -> Q
}.

(** A one-row table: its columns in order, each with the row's cell.
    A label may occur more than once. *)
Definition frame : Type := list (string * pyval).

Definition columns (df : frame) : list string := map fst df.

(** What the attribution method returns for the row: one slice per class
    (a three-dimensional array), or a single slice. *)
Inductive shap_output : Type :=
| ShapPerClass (slices : list (list Q))
| ShapSingle (slice : list Q).

(** A historical dataset: column labels and rows of cells. *)
Record dataframe : Type := {
  df_columns : list string;
  df_rows : list (list pyval)
}.

(** Frozen artefacts loaded at start-up (inference.py, lines 8-16):
    [symptom_classes] is [symptom_encoder.classes_], [feature_names_in_] is
    [model.feature_names_in_]; the predictors are read through the label
    they decode to on the encoded row, [shap_values_of] is the attribution
    method bound to the classifier, [ehr_df] the default dataset. The
    predictors are given here on every row; those of the library raise on
    a row whose columns are not the declared ones or whose cells are not
    finite numbers, so a statement that the pipeline returns is made
    together with a row of that kind. *)
Class Artefacts : Type := {
  symptom_classes : list string;
  feature_names_in_ : list string;
  risk_label_of : frame -> string;
  max_probability_of : frame -> Q;
  dept_label_of : frame -> string;
  shap_values_of : frame -> shap_output;
  ehr_df : dataframe
}.

Section Pipeline.

Context {py : Builtins} {art : Artefacts}.

(** [float(v)] *)
Definition py_float (v : pyval) : result pyfloat :=
  match v with
  | VNone => Raise TypeError
  | VBool b => Ok (FFin (inject_Z (bool_to_Z b)))
  | VInt z =>
      if Z.abs z <? float_int_bound then Ok (FFin (round64 (inject_Z z)))
      else Raise OverflowError
  | VFloat f => Ok f
  | VStr s =>
      match float_of_str s with
      | Some f => Ok f
      | None => Raise ValueError
      end
  | VList _ | VDict _ => Raise TypeError
  end.

(** [int(v)] *)
Definition py_int (v : pyval) : result Z :=
  match v with
  | VNone => Raise TypeError
  | VBool b => Ok (bool_to_Z b)
  | VInt z => Ok z
  | VFloat (FFin q) => Ok (Qtrunc q)
  | VFloat FNaN => Raise ValueError
  | VFloat _ => Raise OverflowError
  | VStr s =>
      match int_of_str s with
      | Some z => Ok z
      | None => Raise ValueError
      end
  | VList _ | VDict _ => Raise TypeError
  end.

(** [str(v)] *)
Definition py_str (v : pyval) : string :=
  match v with
  | VStr s => s
  | _ => str_of_other v
  end.

(** ** inference.py, lines 19-39 *)

Definition _normalize_symptoms (raw_symptoms : pyval) : list string :=
  match raw_symptoms with
  | VList l =>
      map (fun item => PyStr.strip (py_str item))
          (filter (fun item => PyStr.nonempty (PyStr.strip (py_str item))) l)
  | VStr s =>
      map PyStr.strip
          (filter (fun item => PyStr.nonempty (PyStr.strip item))
                  (PyStr.split_comma s))
  | _ => []
  end.

Definition _normalize_conditions (raw_conditions : pyval) : list string :=
  match raw_conditions with
  | VList l =>
      map (fun item => PyStr.strip (py_str item))
          (filter (fun item => PyStr.nonempty (PyStr.strip (py_str item))) l)
  | VStr s =>
      map PyStr.strip
          (filter (fun item => PyStr.nonempty (PyStr.strip item))
                  (PyStr.split_comma s))
  | _ => []
  end.

(** [except (TypeError, ValueError)]: any other exception of [float]
    propagates. *)
Definition _safe_float (value default : pyval) : result pyval :=
  match py_float value with
  | Ok f => Ok (VFloat f)
  | Raise TypeError => Ok default
  | Raise ValueError => Ok default
  | Raise e => Raise e
  end.

(** ** inference.py, lines 42-72: [preprocess] *)

(** Lines 43-52: the patient record after the numeric and categorical
    fields are normalised, with the canonical symptom list. *)
Definition preprocess_normalize (patient_input : pydict)
  : result (list string * pydict) :=
  let symptoms_list :=
    _normalize_symptoms (get_default patient_input "Symptoms" (VList [])) in
  let patient := dict_remove patient_input "Symptoms" in
  let conditions :=
    _normalize_conditions
      (get_default patient "Pre_Existing_Conditions" (VList [])) in
  let patient :=
    dict_set patient "Pre_Existing_Conditions"
      (VStr (match conditions with c :: _ => c | [] => "None" end)) in
  age_f <- _safe_float (get_default patient "Age" VNone) (VInt 0) ;;
  age <- py_int age_f ;;
  let patient := dict_set patient "Age" (VInt age) in
  bp <- _safe_float (get_default patient "Blood_Pressure" VNone) (VInt 0) ;;
  let patient := dict_set patient "Blood_Pressure" bp in
  hr <- _safe_float (get_default patient "Heart_Rate" VNone) (VInt 0) ;;
  let patient := dict_set patient "Heart_Rate" hr in
  temp <- _safe_float (get_default patient "Temperature" VNone) (VInt 0) ;;
  let patient := dict_set patient "Temperature" temp in
  Ok (symptoms_list, patient).

(** Lines 56-58: [symptom_encoder.transform] on one symptom list, as a
    table whose columns are the vocabulary (a symptom outside the
    vocabulary is ignored). *)
Definition symptoms_encoded (symptoms_list : list string) : frame :=
  map (fun c => (c, VInt (bool_to_Z (mem c symptoms_list)))) symptom_classes.

Definition hashable (v : pyval) : bool :=
  match v with
  | VList _ | VDict _ => false
  | _ => true
  end.

(** Lines 62-66: [pd.get_dummies(df, columns=cols, drop_first=True)] on a
    table of one row. Selecting the columns raises [KeyError] when one is
    missing; finding the levels of a column raises [TypeError] on a cell
    that cannot be hashed; a column of one row has at most one level, the
    first, which is dropped: the encoded columns leave and no indicator
    column comes in. *)
Definition get_dummies (df : frame) (cols : list string) : result frame :=
  if forallb (fun c => mem c (columns df)) cols then
    if forallb (fun kv => hashable (snd kv))
               (filter (fun kv => mem (fst kv) cols) df)
    then Ok (filter (fun kv => negb (mem (fst kv) cols)) df)
    else Raise TypeError
  else Raise KeyError.

(** Lines 68-70: a declared column missing from the table is added, last,
    with the value zero. *)
Fixpoint pad_columns (df : frame) (cols : list string) : frame :=
  match cols with
  | [] => df
  | c :: rest =>
      pad_columns (if mem c (columns df) then df
                   else (df ++ [(c, VInt 0)])%list) rest
  end.

(** Line 72: [df[labels]] takes, for each label in order, every column
    carrying it. *)
Definition select_columns (df : frame) (labels : list string) : frame :=
  flat_map (fun c => filter (fun kv => String.eqb (fst kv) c) df) labels.

Definition preprocess (patient_input : pydict) : result frame :=
  norm <- preprocess_normalize patient_input ;;
  let df := (snd norm ++ symptoms_encoded (fst norm))%list in
  df <- get_dummies df ["Gender"; "Pre_Existing_Conditions"] ;;
  Ok (select_columns (pad_columns df feature_names_in_) feature_names_in_).

(** ** inference.py, lines 75-78 *)

Definition base_score (risk_label : string) : Z :=
  if String.eqb risk_label "Low" then 25
  else if String.eqb risk_label "Medium" then 55
  else if String.eqb risk_label "High" then 80
  else 40.

Definition _calculate_priority_score (risk_label : string) (confidence : Q) : Z :=
  let base := base_score risk_label in
  let score := base + py_round (round64 (confidence * 20)) in
  Z.max 0 (Z.min 100 score).

(** ** inference.py, lines 81-106 *)

Record ehr_summary : Type := {
  past_visits : pyval;
  last_risk : pyval;
  avg_bp : pyval;
  avg_heart_rate : pyval;
  chronic_conditions : pyval
}.

Definition _build_default_ehr_summary : ehr_summary :=
  {| past_visits := VInt 0;
     last_risk := VStr "Unknown";
     avg_bp := VInt 0;
     avg_heart_rate := VInt 0;
     chronic_conditions := VStr "None" |}.

(** [cell == patient_id] inside the comparison of a column with an integer. *)
Definition cell_eq_int (cell : pyval) (n : Z) : bool :=
  match cell with
  | VInt z => z =? n
  | VBool b => bool_to_Z b =? n
  | VFloat (FFin q) => Qeq_bool q (inject_Z n)
  | _ => false
  end.

(** [row.get(label, default)] on a row of a table with the given columns. *)
Definition row_get (cols : list string) (row : list pyval) (label : string)
    (default : pyval) : pyval :=
  get_default (combine cols row) label default.

Definition _extract_ehr_summary (patient_id : Z) (source_df : option dataframe)
  : result ehr_summary :=
  match source_df with
  | None => Ok _build_default_ehr_summary
  | Some df =>
      if negb (mem "Patient_ID" (df_columns df)) then
        Ok _build_default_ehr_summary
      else
        let cols := df_columns df in
        let ehr_record :=
          filter (fun row => cell_eq_int (row_get cols row "Patient_ID" VNone)
                                         patient_id)
                 (df_rows df) in
        match ehr_record with
        | [] => Ok _build_default_ehr_summary
        | row :: _ =>
            visits <- py_int (py_or (row_get cols row "Past_Visits" (VInt 0))
                                    (VInt 0)) ;;
            let risk := py_str (py_or (row_get cols row "Last_Risk_Level"
                                               (VStr "Unknown"))
                                      (VStr "Unknown")) in
            bp <- py_float (py_or (row_get cols row "Avg_BP" (VInt 0))
                                  (VInt 0)) ;;
            hr <- py_float (py_or (row_get cols row "Avg_Heart_Rate" (VInt 0))
                                  (VInt 0)) ;;
            let chronic := py_str (py_or (row_get cols row "Chronic_Conditions"
                                                  (VStr "None"))
                                         (VStr "None")) in
            Ok {| past_visits := VInt visits;
                  last_risk := VStr risk;
                  avg_bp := VFloat bp;
                  avg_heart_rate := VFloat hr;
                  chronic_conditions := VStr chronic |}
        end
  end.

(** ** routing.py *)

(** Line 4: [patient_data["Heart_Rate"] > 130 or
    patient_data["Temperature"] > 103], on the raw values. *)
Definition vitals_alarm (patient_data : pydict) : result bool :=
  hr <- dict_index patient_data "Heart_Rate" ;;
  hr_high <- py_gt hr 130 ;;
  if (hr_high : bool) then Ok true
  else
    temp <- dict_index patient_data "Temperature" ;;
    py_gt temp 103.

Definition recommend_department (patient_data : pydict) (predicted_risk : string)
  : result string :=
  alarm <- (if String.eqb predicted_risk "High" then vitals_alarm patient_data
            else Ok false) ;;
  if (alarm : bool) then Ok "Emergency"
  else
    let symptoms := get_default patient_data "Symptoms" (VList []) in
    let conditions :=
      get_default patient_data "Pre_Existing_Conditions" (VList []) in
    chest <- py_in "Chest Pain" symptoms ;;
    if (chest : bool) then Ok "Cardiology"
    else
      breath <- py_in "Shortness of Breath" symptoms ;;
      if (breath : bool) then Ok "Pulmonology"
      else
        seizure <- py_in "Seizure" symptoms ;;
        if (seizure : bool) then Ok "Neurology"
        else
          diabetes <- py_in "Diabetes" conditions ;;
          if (diabetes : bool) then Ok "Endocrinology"
          else Ok "General Medicine".

(** ** explain.py *)

Definition Qlt_bool (x y : Q) : bool := negb (Qle_bool y x).

(** [np.mean(np.abs(a), axis=0)[0]]: for each feature, the mean over the
    classes of the absolute attribution. *)
Definition sum_abs_at (slices : list (list Q)) (j : nat) : Q :=
  fold_right (fun slice acc => (Qabs (nth j slice 0) + acc)%Q) 0%Q slices.

Definition mean_abs (slices : list (list Q)) : list Q :=
  match slices with
  | [] => []
  | s0 :: _ =>
      map (fun j => (sum_abs_at slices j
                     / inject_Z (Z.of_nat (length slices)))%Q)
          (seq 0 (length s0))
  end.

(** [sorted(pairs, key=lambda x: x[1], reverse=True)]: the sort is stable,
    so the result is the one of a stable insertion sort. [insert_desc x l]
    puts [x], which came before every element of [l], in front of the
    first element whose key is not greater. *)
Fixpoint insert_desc (x : string * Q) (l : list (string * Q))
  : list (string * Q) :=
  match l with
  | [] => [x]
  | y :: l' =>
      if Qlt_bool (snd x) (snd y) then y :: insert_desc x l'
      else x :: y :: l'
  end.

Fixpoint sorted_desc (l : list (string * Q)) : list (string * Q) :=
  match l with
  | [] => []
  | x :: l' => insert_desc x (sorted_desc l')
  end.

(** [dict(pairs)]: a repeated key keeps its first place and takes the
    last value. *)
Fixpoint assoc_set (d : list (string * Q)) (k : string) (v : Q)
  : list (string * Q) :=
  match d with
  | [] => [(k, v)]
  | (k', v') :: d' =>
      if String.eqb k k' then (k', v) :: d' else (k', v') :: assoc_set d' k v
  end.

Definition dict_of_pairs (l : list (string * Q)) : list (string * Q) :=
  fold_left (fun d kv => assoc_set d (fst kv) (snd kv)) l [].

Definition feature_importance (shap_values : shap_output) : list Q :=
  match shap_values with
  | ShapPerClass slices => mean_abs slices
  | ShapSingle slice => map Qabs slice
  end.

Definition explain (processed_df : frame) (feature_names : list string)
  : list (string * Q) :=
  let importance := feature_importance (shap_values_of processed_df) in
  dict_of_pairs (firstn 3 (sorted_desc (combine feature_names importance))).

(** ** inference.py, lines 109-143: [predict_patient] *)

Record prediction : Type := {
  risk_level : string;
  confidence : Q;
  priority_score : Z;
  recommended_department : string;
  top_contributors : list (string * Q);
  ehr_summary_of : ehr_summary
}.

(** [round(x, 3)] *)
Definition py_round3 (q : Q) : Q :=
  round64 (inject_Z (py_round (q * 1000)) / 1000)%Q.

(** Lines 125-128: the test of the safety override. *)
Definition safety_override (patient_input : pydict) (risk_label : string)
  : result bool :=
  if String.eqb risk_label "High" then
    hr <- _safe_float (get_default patient_input "Heart_Rate" VNone) (VInt 0) ;;
    hr_high <- py_gt hr 130 ;;
    if (hr_high : bool) then Ok true
    else
      temp <- _safe_float (get_default patient_input "Temperature" VNone)
                          (VInt 0) ;;
      py_gt temp 103
  else Ok false.

Definition predict_patient (patient_input : pydict)
    (ehr_source_df : option dataframe) : result prediction :=
  processed_df <- preprocess patient_input ;;
  pid <- _safe_float (get_default patient_input "Patient_ID" VNone) (VInt 0) ;;
  patient_id <- py_int pid ;;
  let source_df :=
    match ehr_source_df with
    | Some df => df
    | None => ehr_df
    end in
  ehr <- _extract_ehr_summary patient_id (Some source_df) ;;
  let risk_label := risk_label_of processed_df in
  let conf := max_probability_of processed_df in
  let dept_label := dept_label_of processed_df in
  routed_department <- recommend_department patient_input risk_label ;;
  override <- safety_override patient_input risk_label ;;
  let dept_label :=
    if (override : bool) then "Emergency"
    else if negb (PyStr.nonempty dept_label) then routed_department
    else dept_label in
  let explanation := explain processed_df feature_names_in_ in
  let score := _calculate_priority_score risk_label conf in
  Ok {| risk_level := risk_label;
        confidence := py_round3 conf;
        priority_score := score;
        recommended_department := dept_label;
        top_contributors := explanation;
        ehr_summary_of := ehr |}.

End Pipeline.

(** ** An instance of the builtins, to evaluate the model on examples

    [ex_float_of_str] reads unsigned decimal integers and the words [inf]
    and [nan], [ex_int_of_str] unsigned decimal integers, and both reject
    every other string; [ex_str_of_other] prints [None], the booleans and
    the integers; [ex_round64] is the identity. The examples below give
    them only arguments on which they agree with the interpreter
    (integers below [2 ^ 53] are binary64 numbers). *)

Fixpoint digits_value (s : string) (acc : Z) : option Z :=
  match s with
  | EmptyString => Some acc
  | String c s' =>
      let n := Z.of_nat (nat_of_ascii c) in
      if (48 <=? n) && (n <=? 57) then digits_value s' (10 * acc + (n - 48))
      else None
  end.

Definition ex_int_of_str (s : string) : option Z :=
  match s with
  | EmptyString => None
  | _ => digits_value s 0
  end.

Definition ex_float_of_str (s : string) : option pyfloat :=
  if String.eqb s "inf" then Some FPosInf
  else if String.eqb s "nan" then Some FNaN
  else
    match ex_int_of_str s with
    | Some z => Some (FFin (inject_Z z))
    | None => None
    end.

Definition ex_str_of_other (v : pyval) : string :=
  match v with
  | VNone => "None"
  | VBool true => "True"
  | VBool false => "False"
  | VInt z => NilEmpty.string_of_int (Z.to_int z)
  | _ => EmptyString
  end.

Definition ex_round64 (q : Q) : Q := q.

Definition ex_builtins : Builtins :=
  {| float_of_str := ex_float_of_str;
     int_of_str := ex_int_of_str;
     str_of_other := ex_str_of_other;
     round64 := ex_round64 |}.

(** ** Statements about the router *)

(** The first test of the router holds: the risk is "High" and, on the raw
    values, the heart rate is above 130 or else the temperature is above
    103. *)
Definition alarm (patient_data : pydict) (risk : string) : Prop :=
  risk = "High" /\
  exists hr, dict_get patient_data "Heart_Rate" = Some hr /\
    (py_gt hr 130 = Ok true \/
     (py_gt hr 130 = Ok false /\
      exists temp, dict_get patient_data "Temperature" = Some temp /\
                   py_gt temp 103 = Ok true)).

(** The first test of the router fails (and does not raise). *)
Definition no_alarm (patient_data : pydict) (risk : string) : Prop :=
  risk <> "High" \/
  exists hr temp,
    dict_get patient_data "Heart_Rate" = Some hr /\
    dict_get patient_data "Temperature" = Some temp /\
    py_gt hr 130 = Ok false /\ py_gt temp 103 = Ok false.

(** The binary64 number nearest to 98.6. *)
Definition f98_6 : pyfloat := FFin (3469179087958835 # 35184372088832).

Definition medium_chest_pain : pydict :=
  [("Symptoms", VList [VStr "Chest Pain"]);
   ("Heart_Rate", VInt 90);
   ("Temperature", VFloat f98_6)].



(** ** Statements about the explanation *)




Definition ex_artefacts_single : Artefacts :=
  {| symptom_classes := ["Fever"];
     feature_names_in_ := ["Age"; "Fever"];
     risk_label_of := fun _ => "High";
     max_probability_of := fun _ => 9 # 10;
     dept_label_of := fun _ => "Cardiology";
     shap_values_of := fun _ => ShapSingle [(-5) # 1; 1 # 1];
     ehr_df := {| df_columns := []; df_rows := [] |} |}.

(** ** Statements about normalisation *)

(** What a numeric field is after normalisation, in the words of the
    specification: the value as a float when it is a number or a string
    that [float] reads, and 0 for any other string, null, an omitted key
    (read as null), a list or a dict. *)
Definition normal_number `{py : Builtins} (v : pyval) : pyval :=
  match v with
  | VBool b => VFloat (FFin (inject_Z (bool_to_Z b)))
  | VInt z => VFloat (FFin (round64 (inject_Z z)))
  | VFloat f => VFloat f
  | VStr s =>
      match float_of_str s with
      | Some f => VFloat f
      | None => VInt 0
      end
  | VNone | VList _ | VDict _ => VInt 0
  end.

(** An integer within the range of the floats. *)
Definition int_in_range (v : pyval) : Prop :=
  match v with
  | VInt z => Z.abs z < float_int_bound
  | _ => True
  end.

(** Neither an infinity nor a NaN. *)
Definition finite_number (v : pyval) : Prop :=
  match v with
  | VFloat f => is_finite f = true
  | _ => True
  end.

(** The value neither is a non-finite float nor, being a string, reads as
    one. *)
Definition denotes_finite `{py : Builtins} (v : pyval) : Prop :=
  match v with
  | VFloat f => is_finite f = true
  | VStr s =>
      match float_of_str s with
      | Some f => is_finite f = true
      | None => True
      end
  | _ => True
  end.

(** The integer part of a normalised number. *)
Definition truncated (v : pyval) : Z :=
  match v with
  | VFloat (FFin q) => Qtrunc q
  | _ => 0
  end.

Definition numeric_fields : list string :=
  ["Age"; "Blood_Pressure"; "Heart_Rate"; "Temperature"].

(** A report with a heart rate beyond the range of the floats (the JSON
    number [1e999] is read as an infinity). *)
Definition infinite_heart_rate : pydict :=
  [("Gender", VStr "Male"); ("Age", VInt 61);
   ("Heart_Rate", VFloat FPosInf)].

(** A report with missing and unreadable numeric fields. *)
Definition malformed_numbers : pydict :=
  [("Gender", VStr "Female"); ("Age", VStr "42");
   ("Blood_Pressure", VStr "high"); ("Heart_Rate", VNone);
   ("Symptoms", VStr "Fever, Cough")].

(** The record that lines 43-52 build when no conversion raises. *)
Definition normalized_record `{py : Builtins} (patient_input : pydict) : pydict :=
  let raw k := get_default patient_input k VNone in
  let conditions :=
    _normalize_conditions
      (get_default (dict_remove patient_input "Symptoms")
                   "Pre_Existing_Conditions" (VList [])) in
  let p0 := dict_remove patient_input "Symptoms" in
  let p1 := dict_set p0 "Pre_Existing_Conditions"
              (VStr (match conditions with c :: _ => c | [] => "None" end)) in
  let p2 := dict_set p1 "Age" (VInt (truncated (normal_number (raw "Age")))) in
  let p3 := dict_set p2 "Blood_Pressure" (normal_number (raw "Blood_Pressure")) in
  let p4 := dict_set p3 "Heart_Rate" (normal_number (raw "Heart_Rate")) in
  dict_set p4 "Temperature" (normal_number (raw "Temperature")).

(** ** Statements about the encoded row *)

(** The fields that normalisation writes into the record. *)
Definition record_fields : list string :=
  ["Pre_Existing_Conditions"; "Age"; "Blood_Pressure"; "Heart_Rate";
   "Temperature"].

(** A report with a key that is also a symptom of the vocabulary. *)
Definition clashing_key : pydict :=
  [("Gender", VStr "Male"); ("Fever", VInt 1)].

(** A report without a gender. *)
Definition no_gender : pydict :=
  [("Age", VInt 45); ("Symptoms", VStr "Fever")].

(** ** Inputs on which the pipeline raises *)

(** A dataset read from a file in which the visit count of patient 7 is
    blank: the cell is a NaN. *)
Definition ehr_blank_visits : dataframe :=
  {| df_columns := ["Patient_ID"; "Past_Visits"; "Last_Risk_Level"; "Avg_BP";
                    "Avg_Heart_Rate"; "Chronic_Conditions"];
     df_rows := [[VInt 7; VFloat FNaN; VStr "High";
                  VFloat (FFin (inject_Z 120)); VFloat (FFin (inject_Z 80));
                  VStr "Diabetes"]] |}.

(** A dataset with complete rows. *)
Definition ehr_complete : dataframe :=
  {| df_columns := ["Patient_ID"; "Past_Visits"; "Last_Risk_Level"; "Avg_BP";
                    "Avg_Heart_Rate"; "Chronic_Conditions"];
     df_rows := [[VInt 7; VInt 3; VStr "High";
                  VFloat (FFin (inject_Z 120)); VFloat (FFin (inject_Z 80));
                  VStr "Diabetes"]] |}.

(** A report whose vital signs arrive as text, as a form sends them. *)
Definition vitals_as_text : pydict :=
  [("Patient_ID", VInt 7); ("Gender", VStr "Male"); ("Age", VInt 60);
   ("Heart_Rate", VStr "150"); ("Temperature", VStr "99");
   ("Symptoms", VList [VStr "Fever"])].

(** A report without a heart rate. *)
Definition no_heart_rate : pydict :=
  [("Patient_ID", VInt 7); ("Gender", VStr "Male"); ("Age", VInt 60);
   ("Temperature", VInt 104); ("Symptoms", VList [VStr "Fever"])].

(** The same vital signs as numbers. *)
Definition vitals_as_numbers : pydict :=
  [("Patient_ID", VInt 7); ("Gender", VStr "Male"); ("Age", VInt 60);
   ("Heart_Rate", VInt 150); ("Temperature", VInt 99);
   ("Symptoms", VList [VStr "Fever"])].

(** The department of the three-tier precedence. *)
Definition precedence (override : bool) (dept_label routed : string) : string :=
  if override then "Emergency"
  else if PyStr.nonempty dept_label then dept_label
  else routed.

(** * Further statements

    ** Values by kind *)

(** A list, a string or a dict: what [in] accepts on its right. *)
Definition container (v : pyval) : Prop :=
  match v with
  | VList _ | VStr _ | VDict _ => True
  | _ => False
  end.

(** A boolean, an integer or a float: what [>] compares with an integer. *)
Definition number (v : pyval) : Prop :=
  match v with
  | VBool _ | VInt _ | VFloat _ => True
  | _ => False
  end.

(** The departments the router can name. *)
Definition departments : list string :=
  ["Emergency"; "Cardiology"; "Pulmonology"; "Neurology"; "Endocrinology";
   "General Medicine"].

(** Binary64 rounding does not reorder numbers and keeps the integers up to
    [2 ^ 53]. *)
Definition rounding_ok `{py : Builtins} : Prop :=
  (forall a b : Q, (a <= b)%Q -> (round64 a <= round64 b)%Q)
  /\ (forall n : Z, Z.abs n <= 2 ^ 53 ->
        (round64 (inject_Z n) == inject_Z n)%Q).

(** ** Cells of a historical row *)

(** A visit count that [int] accepts: null, a boolean, an integer or a
    finite float. *)
Definition visits_cell (v : pyval) : Prop :=
  match v with
  | VNone | VBool _ | VInt _ | VFloat (FFin _) => True
  | _ => False
  end.

(** An average that [float] accepts: null, a boolean, an integer within
    the range of the floats or a float. *)
Definition average_cell (v : pyval) : Prop :=
  match v with
  | VNone | VBool _ | VFloat _ => True
  | VInt z => Z.abs z < float_int_bound
  | _ => False
  end.

(** Null or text. *)
Definition text_cell (v : pyval) : Prop :=
  match v with
  | VNone | VStr _ => True
  | _ => False
  end.

(** * ehr_store.py: the columns of an uploaded dataset *)

(** [str.lower] on the code points below 256: the ASCII capitals and the
    Latin-1 capitals move down by 32. *)
Definition lower_char (c : ascii) : ascii :=
  let n := nat_of_ascii c in
  if ((65 <=? n) && (n <=? 90) || (192 <=? n) && (n <=? 214)
      || (216 <=? n) && (n <=? 222))%nat
  then ascii_of_nat (n + 32)
  else c.

Fixpoint str_lower (s : string) : string :=
  match s with
  | EmptyString => EmptyString
  | String c s' => String (lower_char c) (str_lower s')
  end.

(** A character of the class [[a-z0-9]]. *)
Definition is_lower_alnum (c : ascii) : bool :=
  let n := nat_of_ascii c in
  ((97 <=? n) && (n <=? 122) || (48 <=? n) && (n <=? 57))%nat.

(** [re.sub(r"[^a-z0-9]", "", s)] *)
Fixpoint keep_lower_alnum (s : string) : string :=
  match s with
  | EmptyString => EmptyString
  | String c s' =>
      if is_lower_alnum c then String c (keep_lower_alnum s')
      else keep_lower_alnum s'
  end.

(** Lines 42-43 *)
Definition _norm `{py : Builtins} (text : pyval) : string :=
  keep_lower_alnum (str_lower (PyStr.strip (py_str text))).

(** Lines 9-16 *)
Definition _REQUIRED_COLUMNS : list string :=
  ["Patient_ID"; "Past_Visits"; "Last_Risk_Level"; "Avg_BP"; "Avg_Heart_Rate";
   "Chronic_Conditions"].

(** Lines 18-39: each canonical column with its aliases, in order. *)
Definition _ALIASES : list (string * list string) :=
  [("Patient_ID", ["patientid"; "patient_id"; "id"; "patient"]);
   ("Past_Visits",
    ["pastvisits"; "past_visits"; "visits"; "visitcount"; "visit_count"]);
   ("Last_Risk_Level",
    ["lastrisklevel"; "last_risk_level"; "lastrisk"; "last_risk"]);
   ("Avg_BP",
    ["avgbp"; "avg_bp"; "averagebp"; "average_bp"; "bpavg"; "bp_avg"]);
   ("Avg_Heart_Rate",
    ["avgheartrate"; "avg_heart_rate"; "averageheartrate";
     "average_heart_rate"; "hravg"; "hr_avg"]);
   ("Chronic_Conditions",
    ["chronicconditions"; "chronic_conditions"; "conditions";
     "preexistingconditions"; "pre_existing_conditions"])].

(** A dict from strings to strings: [d.get(k)] and [d[k] = v]. *)
Fixpoint str_get (d : list (string * string)) (k : string) : option string :=
  match d with
  | [] => None
  | (k', v) :: d' => if String.eqb k k' then Some v else str_get d' k
  end.

Fixpoint str_set (d : list (string * string)) (k v : string)
  : list (string * string) :=
  match d with
  | [] => [(k, v)]
  | (k', v') :: d' =>
      if String.eqb k k' then (k', v) :: d' else (k', v') :: str_set d' k v
  end.

(** Line 47: [{_norm(col): col for col in df.columns}]; of two columns of
    one normal form the later one stays. *)
Definition normalized_existing `{py : Builtins} (cols : list string)
  : list (string * string) :=
  fold_left (fun d col => str_set d (_norm (VStr col)) col) cols [].

(** Lines 51-55: the first alias under which a column with a non-empty
    label is known. *)
Fixpoint first_existing (existing : list (string * string))
    (aliases : list string) : option string :=
  match aliases with
  | [] => None
  | alias :: rest =>
      match str_get existing alias with
      | Some col => if PyStr.nonempty col then Some col
                    else first_existing existing rest
      | None => first_existing existing rest
      end
  end.

(** Lines 48-55 *)
Definition rename_map_of (existing : list (string * string))
  : list (string * string) :=
  fold_left
    (fun rename_map entry =>
       match first_existing existing (snd entry) with
       | Some col => str_set rename_map col (fst entry)
       | None => rename_map
       end)
    _ALIASES [].

(** [df.rename(columns=rename_map)] on one label. *)
Definition rename_label (rename_map : list (string * string)) (col : string)
  : string :=
  match str_get rename_map col with
  | Some canonical => canonical
  | None => col
  end.

(** Lines 59-66: the value that fills a required column that is missing;
    the patient identifier is not filled. *)
Definition default_cell (col : string) : option pyval :=
  if mem col ["Past_Visits"; "Avg_BP"; "Avg_Heart_Rate"] then Some (VInt 0)
  else if String.eqb col "Last_Risk_Level" then Some (VStr "Unknown")
  else if String.eqb col "Chronic_Conditions" then Some (VStr "None")
  else None.

(** [mapped[col] = value]: a new column, last, with the value in every
    row. *)
Definition add_column (df : dataframe) (col : string) (value : pyval)
  : dataframe :=
  {| df_columns := (df_columns df ++ [col])%list;
     df_rows := map (fun row => (row ++ [value])%list) (df_rows df) |}.

Fixpoint fill_required (df : dataframe) (required : list string) : dataframe :=
  match required with
  | [] => df
  | col :: rest =>
      fill_required
        (if mem col (df_columns df) then df
         else match default_cell col with
              | Some value => add_column df col value
              | None => df
              end)
        rest
  end.

(** Lines 46-68 *)
Definition _map_columns `{py : Builtins} (df : dataframe) : dataframe :=
  let rename_map := rename_map_of (normalized_existing (df_columns df)) in
  let mapped :=
    {| df_columns := map (rename_label rename_map) (df_columns df);
       df_rows := df_rows df |} in
  fill_required mapped _REQUIRED_COLUMNS.

(** A header as exported with spaces and capitals. *)
Definition ex_header : dataframe :=
  {| df_columns := ["Patient ID"; "Visits"; "Last Risk"; "BP avg"];
     df_rows := [[VInt 7; VInt 3; VStr "High"; VInt 120]] |}.

(** Every character is of the class [[a-z0-9]]. *)
Definition all_lower_alnum (s : string) : Prop :=
  Forall (fun c => is_lower_alnum c = true) (list_ascii_of_string s).

(** The column that line 52 finds for an entry of [_ALIASES]. *)
Definition pick (existing : list (string * string))
    (entry : string * list string) : option string :=
  first_existing existing (snd entry).

Definition disjointb (l1 l2 : list string) : bool :=
  forallb (fun a => negb (mem a l2)) l1.

(** Every row has one cell per column. *)
Definition rectangular (df : dataframe) : Prop :=
  forall row, In row (df_rows df) -> length row = length (df_columns df).

(** * database.py *)

(** Lines 260-275, as a function of the value that the query of line 262
    returns for [MAX(patient_id)] ([VNone] when it is null). *)
Definition get_next_patient_id `{py : Builtins} (max_patient_id : pyval)
  : result Z :=
  match max_patient_id with
  | VNone => Ok 1001
  | current_max =>
      next_id <- match py_int current_max with
                 | Ok n => Ok (n + 1)
                 | Raise TypeError => Ok 1001
                 | Raise ValueError => Ok 1001
                 | Raise e => Raise e
                 end ;;
      Ok (Z.max 1001 next_id)
  end.

(** [sep.join(xs)] *)
Fixpoint str_join (sep : string) (xs : list string) : string :=
  match xs with
  | [] => EmptyString
  | [x] => x
  | x :: rest => x ++ sep ++ str_join sep rest
  end.

(** The strings of a list of values, when every value is a string. *)
Fixpoint all_strings (l : list pyval) : option (list string) :=
  match l with
  | [] => Some []
  | VStr s :: rest =>
      match all_strings rest with
      | Some ss => Some (s :: ss)
      | None => None
      end
  | _ :: _ => None
  end.

(** Lines 162-166 and 168-172: the text stored for the symptoms and for the
    conditions; [", ".join] raises [TypeError] on an entry that is not a
    string. *)
Definition stored_text `{py : Builtins} (value : pyval) : result string :=
  match value with
  | VList l =>
      match all_strings l with
      | Some ss => Ok (str_join ", " ss)
      | None => Raise TypeError
      end
  | v => Ok (py_str v)
  end.

Definition symptoms_text `{py : Builtins} (patient_data : pydict)
  : result string :=
  stored_text (get_default patient_data "Symptoms" (VList [])).

Definition conditions_text `{py : Builtins} (patient_data : pydict)
  : result string :=
  stored_text (get_default patient_data "Pre_Existing_Conditions" (VList [])).

(** * main.py *)

(** What a handler gives back: a value, an [HTTPException], or another
    exception that escapes. *)
Inductive http_result (A : Type) : Type :=
| Respond (a : A)
| HTTPException (status_code : Z) (detail : string)
| Escapes (exception : string).

Arguments Respond {A} a.
Arguments HTTPException {A} status_code detail.
Arguments Escapes {A} exception.

(** [s.split(" ", 1)[1]]: what follows the first space. *)
Fixpoint after_first_space (s : string) : option string :=
  match s with
  | EmptyString => None
  | String c s' =>
      if Ascii.eqb c " "%char then Some s' else after_first_space s'
  end.

(** Lines 35-44, over the lookup of a session token in the database. *)
Definition _authorized_user {User : Type}
    (get_user_by_token : string -> option User)
    (authorization : option string) : http_result User :=
  match authorization with
  | None => HTTPException 401 "Unauthorized"
  | Some header =>
      if negb (PyStr.nonempty header) || negb (prefix "Bearer " header)
      then HTTPException 401 "Unauthorized"
      else
        match after_first_space header with
        | None => Escapes "IndexError"
        | Some token =>
            match get_user_by_token token with
            | Some user => Respond user
            | None => HTTPException 401 "Invalid or expired token"
            end
        end
  end.

(** A value that [float] does not read: null (an absent key is read as
    null), a list, a dict, or a string that [float] rejects. *)
Definition unreadable `{py : Builtins} (v : pyval) : Prop :=
  match v with
  | VNone | VList _ | VDict _ => True
  | VStr s => float_of_str s = None
  | _ => False
  end.

(** ** What the summary reads in a cell

    The value reported for a cell, case by case on what the cell holds:
    null, zero, false and the empty string give the default. *)




(** ** The row handed to the fitted models *)

(** A bound that single and double precision floats both hold. *)
Definition single_bound : Z := 2 ^ 127.

(** A cell the fitted models can read: an integer or a finite float, of a
    magnitude a single precision float holds. *)
Definition model_cell (v : pyval) : Prop :=
  match v with
  | VInt z => Z.abs z <= single_bound
  | VFloat (FFin q) => (Qabs q <= inject_Z single_bound)%Q
  | _ => False
  end.

(** * Properties *)

(** ** Rounding and the priority score *)

Lemma py_round_floor (q : Q) : Qfloor q <= py_round q <= Qfloor q + 1.
Proof.
  unfold py_round.
  destruct (q - inject_Z (Qfloor q) ?= 1 # 2)%Q; try lia.
  destruct (Z.even (Qfloor q)); lia.
Qed.

Lemma py_round_mono (a b : Q) : (a <= b)%Q -> py_round a <= py_round b.
Proof.
  intros Hab.
  pose proof (Qfloor_resp_le _ _ Hab) as Hfl.
  destruct (Z.eq_dec (Qfloor a) (Qfloor b)) as [Heq | Hne].
  - unfold py_round. rewrite Heq.
    assert (Hsub : (a - inject_Z (Qfloor b) <= b - inject_Z (Qfloor b))%Q).
    { apply Qplus_le_l with (z := inject_Z (Qfloor b)). ring_simplify. exact Hab. }
    destruct (a - inject_Z (Qfloor b) ?= 1 # 2)%Q eqn:Ca;
      destruct (b - inject_Z (Qfloor b) ?= 1 # 2)%Q eqn:Cb;
      try (destruct (Z.even (Qfloor b)); lia); try lia; exfalso.
    + apply Qeq_alt in Ca. apply Qlt_alt in Cb. rewrite Ca in Hsub.
      exact (Qlt_not_le _ _ Cb Hsub).
    + apply Qgt_alt in Ca. apply Qeq_alt in Cb. rewrite Cb in Hsub.
      exact (Qlt_not_le _ _ Ca Hsub).
    + apply Qgt_alt in Ca. apply Qlt_alt in Cb.
      apply (Qlt_not_le _ _ Ca). apply Qle_trans with (1 := Hsub).
      apply Qlt_le_weak. exact Cb.
  - pose proof (py_round_floor a). pose proof (py_round_floor b). lia.
Qed.

Lemma base_score_cases (risk_label : string) :
  base_score risk_label = 25 \/ base_score risk_label = 55 \/
  base_score risk_label = 80 \/ base_score risk_label = 40.
Proof.
  unfold base_score.
  repeat match goal with |- context [String.eqb ?a ?b] =>
    destruct (String.eqb a b) end; auto.
Qed.

(** C4. The priority score is [base + round(confidence * 20)] clamped to
    [0, 100], with base 25 for "Low", 55 for "Medium", 80 for "High" and 40
    for every other label; it lies in [0, 100]; and, binary64 rounding
    being monotone, it does not decrease when the confidence grows. *)
Theorem priority_score_spec `{py : Builtins} :
  (forall a b : Q, (a <= b)%Q -> (round64 a <= round64 b)%Q) ->
  forall (risk_label : string) (confidence : Q),
    let base :=
      if String.eqb risk_label "Low" then 25
      else if String.eqb risk_label "Medium" then 55
      else if String.eqb risk_label "High" then 80
      else 40 in
    let score := _calculate_priority_score risk_label confidence in
    score = Z.max 0 (Z.min 100 (base + py_round (round64 (confidence * 20))))
    /\ 0 <= score <= 100
    /\ forall confidence' : Q,
         (confidence <= confidence')%Q ->
         score <= _calculate_priority_score risk_label confidence'.
Proof.
  intros Hmono risk_label confidence base score.
  repeat split.
  - subst score. unfold _calculate_priority_score. lia.
  - subst score. unfold _calculate_priority_score. lia.
  - intros c' Hle. subst score. unfold _calculate_priority_score.
    assert (py_round (round64 (confidence * 20))
            <= py_round (round64 (c' * 20))).
    { apply py_round_mono, Hmono.
      apply Qmult_le_compat_r; [exact Hle | discriminate]. }
    lia.
Qed.

Lemma priority_score_spec_witness :
  let score := @_calculate_priority_score ex_builtins "High" (9 # 10) in
  score = 98 /\ 0 <= score <= 100
  /\ score <= @_calculate_priority_score ex_builtins "High" 1.
Proof.
  pose proof (@priority_score_spec ex_builtins
                (fun a b H => H) "High" (9 # 10)) as H.
  cbv zeta in H. destruct H as (H1 & H2 & H3).
  split; [reflexivity | split; [exact H2 | apply H3; discriminate]].
Defined.

(** ** The rule-based router *)

Lemma alarm_run (patient_data : pydict) (risk : string) :
  alarm patient_data risk ->
  (if String.eqb risk "High" then vitals_alarm patient_data else Ok false)
  = Ok true.
Proof.
  intros [-> (hr & Hhr & H)]. simpl. unfold vitals_alarm, dict_index.
  rewrite Hhr. simpl.
  destruct H as [-> | [-> (temp & -> & Ht)]]; simpl; auto.
Qed.

Lemma no_alarm_run (patient_data : pydict) (risk : string) :
  no_alarm patient_data risk ->
  (if String.eqb risk "High" then vitals_alarm patient_data else Ok false)
  = Ok false.
Proof.
  intros [Hne | (hr & temp & Hhr & Ht & Ha & Hb)].
  - destruct (String.eqb_spec risk "High"); [contradiction | reflexivity].
  - destruct (String.eqb risk "High"); [| reflexivity].
    unfold vitals_alarm, dict_index. rewrite Hhr. simpl. rewrite Ha. simpl.
    rewrite Ht. simpl. exact Hb.
Qed.

(** C5. The router tests, in this order, and returns at the first test that
    holds: High risk with heart rate above 130 or temperature above 103
    gives "Emergency"; else "Chest Pain" in the symptoms gives
    "Cardiology"; else "Shortness of Breath" gives "Pulmonology"; else
    "Seizure" gives "Neurology"; else "Diabetes" in the conditions gives
    "Endocrinology"; else "General Medicine". For risk "Medium", symptoms
    ["Chest Pain"], heart rate 90 and temperature 98.6 it returns
    "Cardiology". *)
Theorem recommend_department_order (patient_data : pydict) (risk : string) :
  let symptoms := get_default patient_data "Symptoms" (VList []) in
  let conditions :=
    get_default patient_data "Pre_Existing_Conditions" (VList []) in
  (alarm patient_data risk ->
   recommend_department patient_data risk = Ok "Emergency")
  /\ (no_alarm patient_data risk ->
      py_in "Chest Pain" symptoms = Ok true ->
      recommend_department patient_data risk = Ok "Cardiology")
  /\ (no_alarm patient_data risk ->
      py_in "Chest Pain" symptoms = Ok false ->
      py_in "Shortness of Breath" symptoms = Ok true ->
      recommend_department patient_data risk = Ok "Pulmonology")
  /\ (no_alarm patient_data risk ->
      py_in "Chest Pain" symptoms = Ok false ->
      py_in "Shortness of Breath" symptoms = Ok false ->
      py_in "Seizure" symptoms = Ok true ->
      recommend_department patient_data risk = Ok "Neurology")
  /\ (no_alarm patient_data risk ->
      py_in "Chest Pain" symptoms = Ok false ->
      py_in "Shortness of Breath" symptoms = Ok false ->
      py_in "Seizure" symptoms = Ok false ->
      py_in "Diabetes" conditions = Ok true ->
      recommend_department patient_data risk = Ok "Endocrinology")
  /\ (no_alarm patient_data risk ->
      py_in "Chest Pain" symptoms = Ok false ->
      py_in "Shortness of Breath" symptoms = Ok false ->
      py_in "Seizure" symptoms = Ok false ->
      py_in "Diabetes" conditions = Ok false ->
      recommend_department patient_data risk = Ok "General Medicine")
  /\ recommend_department medium_chest_pain "Medium" = Ok "Cardiology".
Proof.
  intros symptoms conditions. subst symptoms conditions.
  unfold recommend_department.
  repeat split; try reflexivity; intros Ha;
    [ rewrite (alarm_run _ _ Ha); reflexivity
    | rewrite (no_alarm_run _ _ Ha); simpl; intros .. ];
    repeat match goal with
           | H : py_in _ _ = _ |- _ => rewrite H; clear H; simpl
           end; reflexivity.
Qed.

Lemma recommend_department_order_witness :
  no_alarm medium_chest_pain "Medium" /\
  py_in "Chest Pain"
        (get_default medium_chest_pain "Symptoms" (VList [])) = Ok true /\
  recommend_department medium_chest_pain "Medium" = Ok "Cardiology".
Proof.
  assert (Hn : no_alarm medium_chest_pain "Medium")
    by (left; discriminate).
  split; [exact Hn | split; [reflexivity |]].
  exact (proj1 (proj2 (recommend_department_order medium_chest_pain "Medium"))
               Hn eq_refl).
Defined.



(** ** Symptom and condition lists *)

Lemma split_comma_single (x : string) :
  PyStr.has_comma x = false -> PyStr.split_comma x = [x].
Proof.
  induction x as [| c x IH]; simpl; [reflexivity |].
  intros H. apply orb_false_iff in H as [Hc Hx].
  rewrite Hc, (IH Hx). reflexivity.
Qed.

Lemma split_comma_app (x r : string) :
  PyStr.has_comma x = false ->
  PyStr.split_comma (x ++ String PyStr.comma r) = x :: PyStr.split_comma r.
Proof.
  induction x as [| c x IH]; simpl; [reflexivity |].
  intros H. apply orb_false_iff in H as [Hc Hx].
  rewrite Hc, (IH Hx). reflexivity.
Qed.

Lemma split_comma_join (x : string) (xs : list string) :
  Forall (fun y => PyStr.has_comma y = false) (x :: xs) ->
  PyStr.split_comma (PyStr.join_comma (x :: xs)) = x :: xs.
Proof.
  revert x. induction xs as [| y ys IH]; intros x H.
  - inversion H; subst. now apply split_comma_single.
  - inversion H as [| ? ? Hx Hrest]; subst.
    change (PyStr.join_comma (x :: y :: ys))
      with (x ++ String PyStr.comma (PyStr.join_comma (y :: ys))).
    rewrite (split_comma_app _ _ Hx), (IH y Hrest). reflexivity.
Qed.

Lemma filter_map_VStr `{py : Builtins} (xs : list string) :
  map (fun item => PyStr.strip (py_str item))
      (filter (fun item => PyStr.nonempty (PyStr.strip (py_str item)))
              (map VStr xs))
  = map PyStr.strip
        (filter (fun item => PyStr.nonempty (PyStr.strip item)) xs).
Proof.
  induction xs as [| x xs IH]; simpl; [reflexivity |].
  destruct (PyStr.nonempty (PyStr.strip x)); simpl; now rewrite IH.
Qed.

(** C7, as stated, fails: a symptom that holds a comma is one entry of the
    list and two entries of the comma-joined string. *)
Lemma normalize_list_vs_joined_counterexample :
  @_normalize_symptoms ex_builtins (VStr (PyStr.join_comma ["Pain, chest"]))
  <> @_normalize_symptoms ex_builtins (VList (map VStr ["Pain, chest"])).
Proof. discriminate. Qed.

(** C7, amended. For every list of symptom strings none of which holds a
    comma, normalising the list and normalising the comma-joined string
    give the same canonical list: each entry trimmed, the empty ones
    dropped. The same holds for the conditions. *)
Theorem normalize_list_vs_joined `{py : Builtins} (xs : list string) :
  Forall (fun x => PyStr.has_comma x = false) xs ->
  let canonical :=
    map PyStr.strip (filter (fun x => PyStr.nonempty (PyStr.strip x)) xs) in
  _normalize_symptoms (VList (map VStr xs)) = canonical
  /\ _normalize_symptoms (VStr (PyStr.join_comma xs)) = canonical
  /\ _normalize_conditions (VList (map VStr xs)) = canonical
  /\ _normalize_conditions (VStr (PyStr.join_comma xs)) = canonical.
Proof.
  intros H canonical. subst canonical.
  unfold _normalize_symptoms, _normalize_conditions.
  rewrite filter_map_VStr.
  destruct xs as [| x xs].
  - repeat split; reflexivity.
  - rewrite (split_comma_join x xs H). repeat split; reflexivity.
Qed.

Lemma normalize_list_vs_joined_witness :
  @_normalize_symptoms ex_builtins
     (VStr (PyStr.join_comma [" Fever"; ""; "Chest Pain "]))
  = ["Fever"; "Chest Pain"]
  /\ @_normalize_symptoms ex_builtins
       (VList (map VStr [" Fever"; ""; "Chest Pain "]))
     = ["Fever"; "Chest Pain"].
Proof.
  pose proof (@normalize_list_vs_joined ex_builtins
                [" Fever"; ""; "Chest Pain "]) as H.
  cbv zeta in H.
  assert (Hc : Forall (fun x => PyStr.has_comma x = false)
                      [" Fever"; ""; "Chest Pain "])
    by (repeat constructor).
  destruct (H Hc) as (H1 & H2 & _).
  split; [exact H2 | exact H1].
Defined.

(** ** The explanation *)




















(** ** Dictionaries *)

Lemma dict_get_set (d : pydict) (k k' : string) (v : pyval) :
  dict_get (dict_set d k v) k'
  = if String.eqb k' k then Some v else dict_get d k'.
Proof.
  induction d as [| [k0 v0] d IH]; simpl.
  - destruct (String.eqb k' k); reflexivity.
  - destruct (String.eqb_spec k k0) as [-> | Hne]; simpl.
    + destruct (String.eqb k' k0); reflexivity.
    + rewrite IH. destruct (String.eqb_spec k' k0) as [-> | _];
        [| reflexivity].
      destruct (String.eqb_spec k0 k); [congruence | reflexivity].
Qed.

Lemma dict_get_remove (d : pydict) (k k' : string) :
  dict_get (dict_remove d k) k'
  = if String.eqb k' k then None else dict_get d k'.
Proof.
  induction d as [| [k0 v0] d IH]; simpl.
  - destruct (String.eqb k' k); reflexivity.
  - destruct (String.eqb_spec k k0) as [-> | Hne]; simpl.
    + rewrite IH. destruct (String.eqb_spec k' k0); reflexivity.
    + rewrite IH. destruct (String.eqb_spec k' k0) as [-> | _];
        [| reflexivity].
      destruct (String.eqb_spec k0 k); [congruence | reflexivity].
Qed.

Lemma get_default_set (d : pydict) (k k' : string) (v dflt : pyval) :
  get_default (dict_set d k v) k' dflt
  = if String.eqb k' k then v else get_default d k' dflt.
Proof.
  unfold get_default. rewrite dict_get_set.
  destruct (String.eqb k' k); reflexivity.
Qed.

Lemma get_default_remove (d : pydict) (k k' : string) (dflt : pyval) :
  get_default (dict_remove d k) k' dflt
  = if String.eqb k' k then dflt else get_default d k' dflt.
Proof.
  unfold get_default. rewrite dict_get_remove.
  destruct (String.eqb k' k); reflexivity.
Qed.

(** ** Numeric fields *)

Lemma safe_float_normal `{py : Builtins} (v : pyval) :
  int_in_range v -> _safe_float v (VInt 0) = Ok (normal_number v).
Proof.
  destruct v as [| b | z | f | s | l | d]; simpl; intros H;
    unfold _safe_float; simpl; try reflexivity.
  - apply Z.ltb_lt in H. rewrite H. reflexivity.
  - destruct (float_of_str s); reflexivity.
Qed.

Lemma py_int_normal `{py : Builtins} (v : pyval) :
  finite_number (normal_number v) ->
  py_int (normal_number v) = Ok (truncated (normal_number v)).
Proof.
  destruct v as [| b | z | f | s | l | d]; simpl; try reflexivity.
  - destruct f; simpl; try reflexivity; discriminate.
  - destruct (float_of_str s) as [f |]; simpl; [| reflexivity].
    destruct f; simpl; try reflexivity; discriminate.
Qed.

Lemma normal_number_finite `{py : Builtins} (v : pyval) :
  denotes_finite v -> finite_number (normal_number v).
Proof.
  destruct v as [| b | z | f | s | l | d]; simpl; auto.
  destruct (float_of_str s); simpl; auto.
Qed.

Ltac dict_simpl :=
  repeat (rewrite ?get_default_set, ?get_default_remove; simpl).

Lemma preprocess_normalize_run `{py : Builtins} (patient_input : pydict) :
  (forall k, In k numeric_fields ->
             int_in_range (get_default patient_input k VNone)) ->
  finite_number (normal_number (get_default patient_input "Age" VNone)) ->
  preprocess_normalize patient_input
  = Ok (_normalize_symptoms (get_default patient_input "Symptoms" (VList [])),
        normalized_record patient_input).
Proof.
  intros Hrange Hage.
  unfold preprocess_normalize, normalized_record.
  dict_simpl.
  rewrite (safe_float_normal _ (Hrange "Age" ltac:(simpl; auto))). simpl.
  rewrite (py_int_normal _ Hage). dict_simpl.
  rewrite (safe_float_normal _ (Hrange "Blood_Pressure" ltac:(simpl; auto))).
  dict_simpl.
  rewrite (safe_float_normal _ (Hrange "Heart_Rate" ltac:(simpl; auto))).
  dict_simpl.
  rewrite (safe_float_normal _ (Hrange "Temperature" ltac:(simpl; auto))).
  reflexivity.
Qed.

(** C6, as stated, fails: a heart rate that is an infinity stays an
    infinity after normalisation, which is not a finite float. *)
Lemma normalize_finite_counterexample :
  exists symptoms patient,
    @preprocess_normalize ex_builtins infinite_heart_rate
    = Ok (symptoms, patient)
    /\ dict_get patient "Heart_Rate" = Some (VFloat FPosInf)
    /\ is_finite FPosInf = false.
Proof. eexists. eexists. repeat split. Qed.

(** C6, amended. For every raw input in which no numeric field is an
    integer beyond the range of the floats and [Age] does not convert to an
    infinity or a NaN, normalisation returns a record in which each of
    [Blood_Pressure], [Heart_Rate] and [Temperature] is the value as a
    float, or 0 when the value is a string that [float] rejects, null, an
    omitted key, a list or a dict, and [Age] is that number truncated to an
    integer; a field is a finite number unless its value is, or is a
    string read as, an infinity or a NaN. *)
Theorem normalize_numeric_fields `{py : Builtins} (patient_input : pydict) :
  let raw k := get_default patient_input k VNone in
  (forall k, In k numeric_fields -> int_in_range (raw k)) ->
  finite_number (normal_number (raw "Age")) ->
  exists symptoms patient,
    preprocess_normalize patient_input = Ok (symptoms, patient)
    /\ dict_get patient "Age"
       = Some (VInt (truncated (normal_number (raw "Age"))))
    /\ (forall k, In k ["Blood_Pressure"; "Heart_Rate"; "Temperature"] ->
          dict_get patient k = Some (normal_number (raw k))
          /\ (denotes_finite (raw k) -> finite_number (normal_number (raw k))))
    /\ (forall k, dict_get patient_input k = None ->
          normal_number (raw k) = VInt 0).
Proof.
  intros raw Hrange Hage.
  exists (_normalize_symptoms (get_default patient_input "Symptoms" (VList []))),
         (normalized_record patient_input).
  split; [now apply preprocess_normalize_run |].
  split.
  { unfold normalized_record. now rewrite !dict_get_set. }
  split.
  - intros k Hk. split; [| apply normal_number_finite].
    unfold normalized_record. simpl in Hk.
    destruct Hk as [<- | [<- | [<- | []]]]; now rewrite !dict_get_set.
  - intros k Hk. unfold raw, get_default. now rewrite Hk.
Qed.

Lemma normalize_numeric_fields_witness :
  exists symptoms patient,
    @preprocess_normalize ex_builtins malformed_numbers = Ok (symptoms, patient)
    /\ dict_get patient "Age" = Some (VInt 42)
    /\ dict_get patient "Blood_Pressure" = Some (VInt 0)
    /\ dict_get patient "Heart_Rate" = Some (VInt 0)
    /\ dict_get patient "Temperature" = Some (VInt 0).
Proof.
  assert (Hrange : forall k, In k numeric_fields ->
            int_in_range (get_default malformed_numbers k VNone)).
  { intros k Hk. simpl in Hk.
    destruct Hk as [<- | [<- | [<- | [<- | []]]]]; exact I. }
  destruct (@normalize_numeric_fields ex_builtins malformed_numbers
              Hrange eq_refl)
    as (symptoms & patient & Hrun & Hage & Hrest & _).
  exists symptoms, patient.
  split; [exact Hrun |]. split; [exact Hage |].
  split; [exact (proj1 (Hrest "Blood_Pressure" ltac:(simpl; auto))) |].
  split; [exact (proj1 (Hrest "Heart_Rate" ltac:(simpl; auto))) |].
  exact (proj1 (Hrest "Temperature" ltac:(simpl; auto))).
Defined.

(** ** Columns of the encoded row *)

Lemma mem_In (k : string) (l : list string) : mem k l = true <-> In k l.
Proof.
  unfold mem. rewrite existsb_exists. split.
  - intros (x & Hx & E). apply String.eqb_eq in E. now subst.
  - intros H. exists k. split; [exact H | apply String.eqb_refl].
Qed.

Lemma mem_count (k : string) (l : list string) :
  mem k l = negb (count_occ string_dec l k =? 0)%nat.
Proof.
  destruct (mem k l) eqn:E.
  - apply mem_In in E. apply (count_occ_In string_dec) in E.
    symmetry. apply negb_true_iff, Nat.eqb_neq. lia.
  - symmetry. apply negb_false_iff, Nat.eqb_eq.
    apply count_occ_not_In. intros H. apply mem_In in H. congruence.
Qed.

Lemma keys_filter (p : string -> bool) (d : pydict) :
  keys (filter (fun kv => p (fst kv)) d) = filter p (keys d).
Proof.
  induction d as [| [k v] d IH]; simpl; [reflexivity |].
  destruct (p k); simpl; now rewrite IH.
Qed.

Lemma keys_dict_set (d : pydict) (k : string) (v : pyval) :
  keys (dict_set d k v)
  = if mem k (keys d) then keys d else (keys d ++ [k])%list.
Proof.
  induction d as [| [k0 v0] d IH]; simpl; [reflexivity |].
  destruct (String.eqb_spec k k0) as [-> | Hne]; simpl; [reflexivity |].
  rewrite IH. unfold keys. destruct (mem k (map fst d)); reflexivity.
Qed.

Lemma keys_dict_set_NoDup (d : pydict) (k : string) (v : pyval) :
  NoDup (keys d) -> NoDup (keys (dict_set d k v)).
Proof.
  intros H. rewrite keys_dict_set. destruct (mem k (keys d)) eqn:E; [exact H |].
  apply NoDup_app; [exact H | repeat constructor; simpl; tauto |].
  intros x Hx [<- | []]. apply mem_In in Hx. congruence.
Qed.

Lemma keys_dict_set_In (d : pydict) (k k' : string) (v : pyval) :
  In k' (keys (dict_set d k v)) -> In k' (keys d) \/ k' = k.
Proof.
  rewrite keys_dict_set. destruct (mem k (keys d)); [tauto |].
  intros H. apply in_app_or in H as [H | [<- | []]]; auto.
Qed.

Lemma dict_get_In (d : pydict) (k : string) (v : pyval) :
  NoDup (keys d) -> In (k, v) d -> dict_get d k = Some v.
Proof.
  induction d as [| [k0 v0] d IH]; simpl; [tauto |].
  intros Hnd [H | H].
  - inversion H; subst. now rewrite String.eqb_refl.
  - inversion Hnd as [| ? ? Hnot Hnd']; subst.
    destruct (String.eqb_spec k k0) as [-> | _]; [| now apply IH].
    exfalso. apply Hnot. change k0 with (fst (k0, v)). now apply in_map.
Qed.

Lemma dict_get_keys (d : pydict) (k : string) (v : pyval) :
  dict_get d k = Some v -> In k (keys d).
Proof.
  induction d as [| [k0 v0] d IH]; simpl; [discriminate |].
  destruct (String.eqb_spec k k0) as [-> | _]; auto.
Qed.

Lemma filter_label_repeat (df : frame) (c : string) :
  columns (filter (fun kv => String.eqb (fst kv) c) df)
  = repeat c (count_occ string_dec (columns df) c).
Proof.
  induction df as [| [k v] df IH]; simpl; [reflexivity |].
  destruct (String.eqb_spec k c) as [-> | Hne]; simpl.
  - destruct (string_dec c c); [| congruence]. simpl. now rewrite IH.
  - destruct (string_dec k c); [congruence | exact IH].
Qed.

Lemma select_columns_once (df : frame) (labels : list string) :
  (forall c, In c labels -> count_occ string_dec (columns df) c = 1%nat) ->
  columns (select_columns df labels) = labels.
Proof.
  unfold select_columns.
  induction labels as [| c labels IH]; intros H; simpl; [reflexivity |].
  unfold columns at 1. rewrite map_app.
  change (map fst (filter (fun kv => String.eqb (fst kv) c) df))
    with (columns (filter (fun kv => String.eqb (fst kv) c) df)).
  rewrite filter_label_repeat, (H c (or_introl eq_refl)). simpl.
  f_equal. apply IH. intros c' Hc'. apply H. now right.
Qed.

Lemma pad_columns_count (labels : list string) (df : frame) (c : string) :
  count_occ string_dec (columns (pad_columns df labels)) c
  = (count_occ string_dec (columns df) c
     + if mem c labels && negb (mem c (columns df)) then 1 else 0)%nat.
Proof.
  revert df. induction labels as [| c0 labels IH]; intros df; simpl.
  - lia.
  - rewrite IH. destruct (mem c0 (columns df)) eqn:E0.
    + destruct (String.eqb_spec c c0) as [-> | Hne]; simpl; [| reflexivity].
      rewrite E0. simpl. destruct (mem c0 labels); simpl; lia.
    + assert (Hc : columns (df ++ [(c0, VInt 0)])%list
                   = (columns df ++ [c0])%list)
        by (unfold columns; now rewrite map_app).
      rewrite Hc, count_occ_app. simpl.
      assert (Hm : mem c (columns df ++ [c0])
                   = mem c (columns df) || String.eqb c c0).
      { unfold mem. rewrite existsb_app. simpl. now rewrite orb_false_r. }
      rewrite Hm.
      destruct (String.eqb_spec c c0) as [-> | Hne].
      * destruct (string_dec c0 c0); [| congruence].
        rewrite E0, orb_true_r. simpl. rewrite andb_false_r. lia.
      * destruct (string_dec c0 c); [congruence |].
        rewrite orb_false_r. simpl. lia.
Qed.

Lemma pad_select_columns (labels : list string) (df : frame) :
  (forall c, In c labels ->
     (count_occ string_dec (columns df) c <= 1)%nat) ->
  columns (select_columns (pad_columns df labels) labels) = labels.
Proof.
  intros H. apply select_columns_once. intros c Hc.
  rewrite pad_columns_count.
  apply mem_In in Hc as Hm. rewrite Hm. simpl.
  rewrite mem_count. specialize (H c Hc).
  destruct (count_occ string_dec (columns df) c) as [| [| n]]; simpl; lia.
Qed.

Lemma count_occ_filter_le (p : string -> bool) (l : list string) (c : string) :
  (count_occ string_dec (filter p l) c <= count_occ string_dec l c)%nat.
Proof.
  induction l as [| x l IH]; simpl; [lia |].
  destruct (p x); simpl; destruct (string_dec x c); lia.
Qed.

Lemma keys_dict_remove_NoDup (d : pydict) (k : string) :
  NoDup (keys d) -> NoDup (keys (dict_remove d k)).
Proof.
  intros H. unfold dict_remove.
  rewrite (keys_filter (fun x => negb (String.eqb k x))).
  now apply NoDup_filter.
Qed.

Lemma keys_dict_remove_In (d : pydict) (k k' : string) :
  In k' (keys (dict_remove d k)) -> In k' (keys d).
Proof.
  unfold dict_remove.
  rewrite (keys_filter (fun x => negb (String.eqb k x))).
  intros H. now apply filter_In in H.
Qed.

Lemma normalized_record_keys `{py : Builtins} (patient_input : pydict) :
  NoDup (keys patient_input) ->
  NoDup (keys (normalized_record patient_input))
  /\ forall k, In k (keys (normalized_record patient_input)) ->
               In k (keys patient_input) \/ In k record_fields.
Proof.
  intros Hnd. unfold normalized_record. split.
  - repeat apply keys_dict_set_NoDup. now apply keys_dict_remove_NoDup.
  - intros k Hk.
    repeat (apply keys_dict_set_In in Hk as [Hk | ->];
            [| right; simpl; tauto]).
    left. now apply keys_dict_remove_In in Hk.
Qed.

Lemma normalized_record_gender `{py : Builtins} (patient_input : pydict) :
  dict_get (normalized_record patient_input) "Gender"
  = dict_get patient_input "Gender".
Proof.
  unfold normalized_record. now rewrite !dict_get_set, dict_get_remove.
Qed.

Lemma normalized_record_conditions `{py : Builtins} (patient_input : pydict) :
  exists c, dict_get (normalized_record patient_input)
                     "Pre_Existing_Conditions" = Some (VStr c).
Proof.
  unfold normalized_record. rewrite !dict_get_set. simpl. eauto.
Qed.

Lemma symptoms_encoded_columns `{art : Artefacts} (symptoms_list : list string) :
  columns (symptoms_encoded symptoms_list) = symptom_classes.
Proof.
  unfold columns, symptoms_encoded. rewrite map_map. apply map_id.
Qed.

Lemma symptoms_encoded_hashable `{art : Artefacts}
    (symptoms_list : list string) (k : string) (v : pyval) :
  In (k, v) (symptoms_encoded symptoms_list) -> hashable v = true.
Proof.
  unfold symptoms_encoded. intros H.
  apply in_map_iff in H as (c & E & _). now inversion E.
Qed.

(** The table on which line 62 calls [get_dummies] has a [Gender] column
    as soon as the report has one with a value that can be hashed, and then
    the call returns the table without its two categorical columns. *)
Lemma get_dummies_run `{py : Builtins} `{art : Artefacts}
    (patient_input : pydict) (symptoms_list : list string) (g : pyval) :
  NoDup (keys patient_input) ->
  dict_get patient_input "Gender" = Some g -> hashable g = true ->
  let df := (normalized_record patient_input
             ++ symptoms_encoded symptoms_list)%list in
  get_dummies df ["Gender"; "Pre_Existing_Conditions"]
  = Ok (filter (fun kv => negb (mem (fst kv)
                                    ["Gender"; "Pre_Existing_Conditions"]))
               df).
Proof.
  intros Hnd Hg Hh df.
  destruct (normalized_record_keys patient_input Hnd) as [Hnd' _].
  destruct (normalized_record_conditions patient_input) as [c Hc].
  rewrite <- normalized_record_gender in Hg.
  unfold get_dummies.
  assert (H1 : forallb (fun c => mem c (columns df))
                       ["Gender"; "Pre_Existing_Conditions"] = true).
  { simpl. rewrite andb_true_r. apply andb_true_iff.
    split; apply mem_In; unfold df, columns; rewrite map_app;
      apply in_or_app; left; eapply dict_get_keys; eassumption. }
  rewrite H1.
  assert (H2 : forallb (fun kv => hashable (snd kv))
                 (filter (fun kv => mem (fst kv)
                            ["Gender"; "Pre_Existing_Conditions"]) df) = true).
  { apply forallb_forall. intros [k v] Hin.
    apply filter_In in Hin as [Hin Hk]. simpl in *.
    apply in_app_or in Hin as [Hin | Hin].
    - apply (dict_get_In _ _ _ Hnd') in Hin.
      destruct (String.eqb_spec k "Gender") as [-> | _]; [congruence |].
      destruct (String.eqb_spec k "Pre_Existing_Conditions") as [-> | _];
        [| discriminate].
      rewrite Hc in Hin. now inversion Hin.
    - eapply symptoms_encoded_hashable; eassumption. }
  now rewrite H2.
Qed.

(** A report with a key that is also a symptom of the vocabulary is
    encoded with that column twice. *)
Lemma preprocess_columns_counterexample :
  exists df,
    @preprocess ex_builtins ex_artefacts_single clashing_key = Ok df
    /\ columns df = ["Age"; "Fever"; "Fever"]
    /\ @feature_names_in_ ex_artefacts_single = ["Age"; "Fever"].
Proof. eexists. repeat split. Qed.

(** Where the reconciliation of lines 68-72 does reach the declared
    columns: on a raw input with distinct keys whose [Gender] is present
    and is neither a list nor a dict, whose numeric fields convert (no
    integer beyond the range of the floats, an [Age] that is not an
    infinity or a NaN), and none of whose keys, nor any field written by
    normalisation, is a declared column of the duplicate-free symptom
    vocabulary, [preprocess] returns a row whose columns are exactly the
    declared list of the classifier, in its order. *)
Theorem preprocess_columns `{py : Builtins} `{art : Artefacts}
    (patient_input : pydict) :
  let raw k := get_default patient_input k VNone in
  NoDup (keys patient_input) ->
  (forall k, In k numeric_fields -> int_in_range (raw k)) ->
  finite_number (normal_number (raw "Age")) ->
  (exists g, dict_get patient_input "Gender" = Some g /\ hashable g = true) ->
  NoDup symptom_classes ->
  (forall c, In c symptom_classes -> In c feature_names_in_ ->
             ~ In c (keys patient_input) /\ ~ In c record_fields) ->
  exists df,
    preprocess patient_input = Ok df /\ columns df = feature_names_in_.
Proof.
  intros raw Hnd Hrange Hage (g & Hg & Hh) Hcl Hclash.
  unfold preprocess.
  rewrite (preprocess_normalize_run _ Hrange Hage). simpl.
  rewrite (get_dummies_run _ _ g Hnd Hg Hh). simpl.
  eexists. split; [reflexivity |].
  apply pad_select_columns. intros c Hc.
  destruct (normalized_record_keys patient_input Hnd) as [Hnd' Hincl].
  unfold columns.
  rewrite (keys_filter
             (fun k => negb (mem k ["Gender"; "Pre_Existing_Conditions"]))).
  eapply Nat.le_trans; [apply count_occ_filter_le |].
  unfold keys. rewrite map_app, count_occ_app.
  fold (keys (normalized_record patient_input)).
  change (map fst (symptoms_encoded ?s)) with (columns (symptoms_encoded s)).
  rewrite symptoms_encoded_columns.
  pose proof (proj1 (NoDup_count_occ string_dec _) Hnd' c) as Hk.
  pose proof (proj1 (NoDup_count_occ string_dec _) Hcl c) as Hs.
  destruct (in_dec string_dec c symptom_classes) as [Hin | Hnin].
  - destruct (Hclash c Hin Hc) as [Hn1 Hn2].
    assert (Hz : count_occ string_dec (keys (normalized_record patient_input)) c
                 = 0%nat).
    { apply count_occ_not_In. intros Hk'.
      destruct (Hincl c Hk'); contradiction. }
    lia.
  - apply (count_occ_not_In string_dec) in Hnin. lia.
Qed.

Lemma preprocess_columns_witness :
  exists df,
    @preprocess ex_builtins ex_artefacts_single malformed_numbers = Ok df
    /\ columns df = ["Age"; "Fever"].
Proof.
  apply (@preprocess_columns ex_builtins ex_artefacts_single malformed_numbers).
  - repeat constructor; simpl; intuition discriminate.
  - intros k Hk. simpl in Hk.
    destruct Hk as [<- | [<- | [<- | [<- | []]]]]; exact I.
  - reflexivity.
  - exists (VStr "Female"). split; reflexivity.
  - repeat constructor; simpl; tauto.
  - intros c [<- | []] _. split; simpl; intuition discriminate.
Defined.

(** C2 at two reports the service can receive. The encoded row is meant to
    have exactly the declared columns (lines 68-72 pad the missing ones and
    select the declared list), and it does not: a report with a key that is
    also a declared symptom of the vocabulary gets that column twice,
    since selecting a label keeps every column that carries it; and a
    report without [Gender] gets no row at all, [get_dummies] raising
    [KeyError] on the missing column, while every other missing field is
    given a default. *)
Theorem preprocess_misses_declared_schema :
  (exists df,
      @preprocess ex_builtins ex_artefacts_single clashing_key = Ok df
      /\ columns df = ["Age"; "Fever"; "Fever"]
      /\ columns df <> @feature_names_in_ ex_artefacts_single)
  /\ @preprocess ex_builtins ex_artefacts_single no_gender = Raise KeyError
  /\ @preprocess_normalize ex_builtins no_gender
     = Ok (["Fever"],
           [("Age", VInt 45); ("Pre_Existing_Conditions", VStr "None");
            ("Blood_Pressure", VInt 0); ("Heart_Rate", VInt 0);
            ("Temperature", VInt 0)]).
Proof.
  split; [| split; reflexivity].
  eexists. split; [reflexivity |]. split; [reflexivity | discriminate].
Qed.

(** ** The summary of the historical record *)

Lemma extract_ehr_summary_default `{py : Builtins}
    (patient_id : Z) (source_df : option dataframe) :
  (source_df = None
   \/ (exists df, source_df = Some df
         /\ (~ In "Patient_ID" (df_columns df)
             \/ forall row, In row (df_rows df) ->
                  cell_eq_int (row_get (df_columns df) row "Patient_ID" VNone)
                              patient_id = false))) ->
  _extract_ehr_summary patient_id source_df = Ok _build_default_ehr_summary.
Proof.
  intros [-> | (df & -> & H)]; [reflexivity |].
  unfold _extract_ehr_summary.
  destruct (mem "Patient_ID" (df_columns df)) eqn:E; simpl; [| reflexivity].
  destruct H as [H | H]; [apply mem_In in E; contradiction |].
  destruct (filter _ (df_rows df)) as [| row rest] eqn:F; [reflexivity |].
  assert (Hin : In row (filter
             (fun row => cell_eq_int
                (row_get (df_columns df) row "Patient_ID" VNone) patient_id)
             (df_rows df))) by (rewrite F; now left).
  apply filter_In in Hin as [Hin Heq]. rewrite (H row Hin) in Heq.
  discriminate.
Qed.

(** C8 at a dataset with a blank cell: the blank visit count of the
    matching row is a NaN, which [or] keeps, and [int] raises on it. *)
Theorem extract_ehr_summary_blank_cell `{py : Builtins} :
  _extract_ehr_summary 7 (Some ehr_blank_visits) = Raise ValueError.
Proof. reflexivity. Qed.

(** ** The whole pipeline *)

Lemma bind_Ok {A B : Type} (r : result A) (k : A -> result B) (b : B) :
  bind r k = Ok b -> exists a, r = Ok a /\ k a = Ok b.
Proof. destruct r as [a | e]; simpl; [eauto | discriminate]. Qed.

Lemma predict_patient_department `{py : Builtins} `{art : Artefacts}
    (patient_input : pydict) (ehr_source_df : option dataframe)
    (res : prediction) :
  predict_patient patient_input ehr_source_df = Ok res ->
  exists df routed override,
    preprocess patient_input = Ok df
    /\ recommend_department patient_input (risk_label_of df) = Ok routed
    /\ safety_override patient_input (risk_label_of df) = Ok override
    /\ recommended_department res
       = precedence override (dept_label_of df) routed.
Proof.
  unfold predict_patient. intros H.
  apply bind_Ok in H as (df & Hdf & H).
  apply bind_Ok in H as (pid & _ & H).
  apply bind_Ok in H as (id & _ & H).
  apply bind_Ok in H as (ehr & _ & H).
  apply bind_Ok in H as (routed & Hrouted & H).
  apply bind_Ok in H as (override & Hoverride & H).
  inversion H; subst; cbn [recommended_department].
  exists df, routed, override. repeat split; try assumption.
  unfold precedence. destruct override; [reflexivity |].
  destruct (PyStr.nonempty (dept_label_of df)); reflexivity.
Qed.

Lemma predict_patient_router_raises `{py : Builtins} `{art : Artefacts}
    (patient_input : pydict) (ehr_source_df : option dataframe)
    (df : frame) (e : pyerr) :
  preprocess patient_input = Ok df ->
  recommend_department patient_input (risk_label_of df) = Raise e ->
  exists e', predict_patient patient_input ehr_source_df = Raise e'.
Proof.
  intros Hp Hr. unfold predict_patient. rewrite Hp. cbn [bind].
  destruct (_safe_float _ _) as [pid | e1]; cbn [bind]; [| eauto].
  destruct (py_int pid) as [id | e1]; cbn [bind]; [| eauto].
  destruct (_extract_ehr_summary _ _) as [ehr | e1]; cbn [bind]; [| eauto].
  rewrite Hr. cbn [bind]. eauto.
Qed.

Lemma recommend_department_no_heart_rate (patient_data : pydict) :
  dict_get patient_data "Heart_Rate" = None ->
  recommend_department patient_data "High" = Raise KeyError.
Proof.
  intros H. unfold recommend_department, vitals_alarm, dict_index.
  simpl. now rewrite H.
Qed.

Lemma recommend_department_text_heart_rate (patient_data : pydict) (s : string) :
  dict_get patient_data "Heart_Rate" = Some (VStr s) ->
  recommend_department patient_data "High" = Raise TypeError.
Proof.
  intros H. unfold recommend_department, vitals_alarm, dict_index.
  simpl. now rewrite H.
Qed.

(** C1 at a report whose vital signs are text: the risk is "High" and the
    heart rate reads as 150, so the test of the safety override holds, but
    the router, called first on the raw values, raises and no department
    is returned. With the same vital signs as numbers the department is
    "Emergency". *)
Theorem predict_patient_vitals_as_text :
  @safety_override ex_builtins vitals_as_text "High" = Ok true
  /\ @predict_patient ex_builtins ex_artefacts_single vitals_as_text
       (Some ehr_complete) = Raise TypeError
  /\ exists res,
       @predict_patient ex_builtins ex_artefacts_single vitals_as_numbers
         (Some ehr_complete) = Ok res
       /\ recommended_department res = "Emergency".
Proof.
  split; [reflexivity |]. split; [reflexivity |].
  eexists. split; reflexivity.
Qed.

(** C3 at a report without a heart rate, the risk being "High": the router
    indexes the missing key and the pipeline raises [KeyError]. *)
Theorem predict_patient_no_heart_rate :
  @predict_patient ex_builtins ex_artefacts_single no_heart_rate
    (Some ehr_complete) = Raise KeyError.
Proof. reflexivity. Qed.

(** When every step before the decision returns, the pipeline returns and
    its department is the one of the three-tier precedence. *)
Lemma predict_patient_returns `{py : Builtins} `{art : Artefacts}
    (patient_input : pydict) (ehr_source_df : option dataframe)
    (df : frame) (pid : pyval) (id : Z) (ehr : ehr_summary)
    (routed : string) (override : bool) :
  preprocess patient_input = Ok df ->
  _safe_float (get_default patient_input "Patient_ID" VNone) (VInt 0) = Ok pid ->
  py_int pid = Ok id ->
  _extract_ehr_summary id
    (Some match ehr_source_df with Some d => d | None => ehr_df end) = Ok ehr ->
  recommend_department patient_input (risk_label_of df) = Ok routed ->
  safety_override patient_input (risk_label_of df) = Ok override ->
  exists res,
    predict_patient patient_input ehr_source_df = Ok res
    /\ recommended_department res
       = precedence override (dept_label_of df) routed
    /\ risk_level res = risk_label_of df
    /\ ehr_summary_of res = ehr.
Proof.
  intros H1 H2 H3 H4 H5 H6. unfold predict_patient.
  rewrite H1. cbn [bind]. rewrite H2. cbn [bind]. rewrite H3. cbn [bind].
  rewrite H4. cbn [bind]. rewrite H5. cbn [bind]. rewrite H6. cbn [bind].
  eexists. split; [reflexivity |]. cbn [recommended_department risk_level
                                        ehr_summary_of].
  repeat split. unfold precedence. destruct override; [reflexivity |].
  destruct (PyStr.nonempty (dept_label_of df)); reflexivity.
Qed.

(** * Further properties of the pipeline *)

(** ** Conversions *)

(** X5. [_safe_float] absorbs every failure of [float] but one: it raises
    only [OverflowError], and exactly on an integer beyond the range of
    the floats. *)
Theorem safe_float_raises_only_overflow `{py : Builtins} (v default : pyval) :
  (forall e, _safe_float v default = Raise e ->
     e = OverflowError
     /\ exists z, v = VInt z /\ float_int_bound <= Z.abs z)
  /\ (forall z, float_int_bound <= Z.abs z ->
        _safe_float (VInt z) default = Raise OverflowError).
Proof.
  split.
  - intros e. unfold _safe_float.
    destruct v as [| b | z | f | s | l | d]; simpl; try discriminate.
    + destruct (Z.ltb_spec (Z.abs z) float_int_bound); simpl;
        [discriminate |].
      intros H'. inversion H'. split; [reflexivity | eauto].
    + destruct (float_of_str s); discriminate.
  - intros z Hz. unfold _safe_float. simpl.
    destruct (Z.ltb_spec (Z.abs z) float_int_bound); [lia | reflexivity].
Qed.

(** ** The router *)

Lemma py_in_container (s : string) (c : pyval) :
  container c -> exists b, py_in s c = Ok b.
Proof. destruct c; simpl; intros H; try contradiction; eauto. Qed.

Lemma py_gt_number (v : pyval) (n : Z) :
  number v -> exists b, py_gt v n = Ok b.
Proof. destruct v; simpl; intros H; try contradiction; eauto. Qed.

Lemma recommend_department_range (patient_data : pydict) (risk d : string) :
  recommend_department patient_data risk = Ok d -> In d departments.
Proof.
  unfold recommend_department, departments. intros H.
  apply bind_Ok in H as (a & _ & H).
  destruct a; [inversion H; simpl; tauto |].
  apply bind_Ok in H as (c1 & _ & H).
  destruct c1; [inversion H; simpl; tauto |].
  apply bind_Ok in H as (c2 & _ & H).
  destruct c2; [inversion H; simpl; tauto |].
  apply bind_Ok in H as (c3 & _ & H).
  destruct c3; [inversion H; simpl; tauto |].
  apply bind_Ok in H as (c4 & _ & H).
  destruct c4; inversion H; simpl; tauto.
Qed.

Lemma recommend_department_returns (patient_data : pydict) (risk : string) :
  container (get_default patient_data "Symptoms" (VList [])) ->
  container (get_default patient_data "Pre_Existing_Conditions" (VList [])) ->
  (risk = "High" ->
   exists hr temp,
     dict_get patient_data "Heart_Rate" = Some hr
     /\ dict_get patient_data "Temperature" = Some temp
     /\ number hr /\ number temp) ->
  exists d, recommend_department patient_data risk = Ok d.
Proof.
  intros Hs Hc Hv. unfold recommend_department.
  assert (Ha : exists a,
             (if String.eqb risk "High" then vitals_alarm patient_data
              else Ok false) = Ok a).
  { destruct (String.eqb_spec risk "High") as [E | _]; [| eauto].
    destruct (Hv E) as (hr & temp & Hhr & Ht & Nh & Nt).
    unfold vitals_alarm, dict_index. rewrite Hhr, Ht. cbn [bind].
    destruct (py_gt_number hr 130 Nh) as [b ->]. cbn [bind].
    destruct b; [eauto |]. apply py_gt_number, Nt. }
  destruct Ha as [a ->]. cbn [bind]. destruct a; [eauto |].
  destruct (py_in_container "Chest Pain" _ Hs) as [b1 ->]. cbn [bind].
  destruct b1; [eauto |].
  destruct (py_in_container "Shortness of Breath" _ Hs) as [b2 ->].
  cbn [bind]. destruct b2; [eauto |].
  destruct (py_in_container "Seizure" _ Hs) as [b3 ->]. cbn [bind].
  destruct b3; [eauto |].
  destruct (py_in_container "Diabetes" _ Hc) as [b4 ->]. cbn [bind].
  destruct b4; eauto.
Qed.

(** X11. The router never raises, and names one of its six departments,
    when the symptoms and the conditions are each absent, a list, a string
    or a dict and, the risk being "High", the heart rate and the
    temperature are present and are numbers. *)
Theorem recommend_department_total (patient_data : pydict) (risk : string) :
  container (get_default patient_data "Symptoms" (VList [])) ->
  container (get_default patient_data "Pre_Existing_Conditions" (VList [])) ->
  (risk = "High" ->
   exists hr temp,
     dict_get patient_data "Heart_Rate" = Some hr
     /\ dict_get patient_data "Temperature" = Some temp
     /\ number hr /\ number temp) ->
  exists d, recommend_department patient_data risk = Ok d /\ In d departments.
Proof.
  intros Hs Hc Hv.
  destruct (recommend_department_returns patient_data risk Hs Hc Hv)
    as [d Hd].
  exists d. split; [exact Hd |].
  eapply recommend_department_range, Hd.
Qed.

Lemma recommend_department_total_witness :
  exists d, recommend_department medium_chest_pain "Medium" = Ok d
            /\ In d departments.
Proof.
  apply (recommend_department_total medium_chest_pain "Medium").
  - exact I.
  - exact I.
  - discriminate.
Defined.

(** ** The two tests for "Emergency" *)

Lemma Qle_bool_inject (a b : Z) :
  Qle_bool (inject_Z a) (inject_Z b) = (a <=? b).
Proof.
  destruct (Z.leb_spec a b) as [H | H].
  - apply Qle_bool_iff. now rewrite <- Zle_Qle.
  - destruct (Qle_bool (inject_Z a) (inject_Z b)) eqn:E; [| reflexivity].
    apply Qle_bool_iff in E. rewrite <- Zle_Qle in E. lia.
Qed.

Lemma float_gt_rounded `{py : Builtins} (z n : Z) :
  rounding_ok -> Z.abs n < 2 ^ 53 ->
  float_gt (FFin (round64 (inject_Z z))) n = (z >? n).
Proof.
  intros [Hmono Hint] Hn. simpl.
  destruct (Z.gtb_spec z n) as [H | H].
  - apply negb_true_iff.
    destruct (Qle_bool (round64 (inject_Z z)) (inject_Z n)) eqn:E;
      [| reflexivity].
    apply Qle_bool_iff in E. exfalso.
    assert (H1 : (inject_Z (n + 1) <= inject_Z z)%Q)
      by (rewrite <- Zle_Qle; lia).
    apply Hmono in H1. rewrite (Hint (n + 1)) in H1 by lia.
    pose proof (Qle_trans _ _ _ H1 E) as H2.
    rewrite <- Zle_Qle in H2. lia.
  - apply negb_false_iff, Qle_bool_iff.
    assert (H1 : (inject_Z z <= inject_Z n)%Q) by (rewrite <- Zle_Qle; lia).
    apply Hmono in H1. now rewrite (Hint n) in H1 by lia.
Qed.

Lemma safe_float_gt `{py : Builtins} (v : pyval) (n : Z) :
  rounding_ok -> Z.abs n < 2 ^ 53 -> number v -> int_in_range v ->
  exists f, _safe_float v (VInt 0) = Ok (VFloat f)
            /\ py_gt (VFloat f) n = py_gt v n.
Proof.
  intros Hr Hn Hnum Hrange. unfold _safe_float.
  destruct v as [| b | z | f | s | l | d]; simpl in *; try contradiction.
  - eexists. split; [reflexivity |]. simpl. f_equal.
    rewrite Qle_bool_inject. destruct (Z.leb_spec (bool_to_Z b) n);
      destruct (Z.gtb_spec (bool_to_Z b) n); simpl; try reflexivity; lia.
  - apply Z.ltb_lt in Hrange. rewrite Hrange.
    eexists. split; [reflexivity |].
    cbn [py_gt]. f_equal. now apply float_gt_rounded.
  - eexists. split; reflexivity.
Qed.

(** X12. On a report whose heart rate and temperature are present and are
    numbers within the range of the floats, the first test of the router
    (on the raw values) and the test of the safety override (through
    [_safe_float]) give the same answer. *)
Theorem router_alarm_agrees_with_override `{py : Builtins}
    (patient_data : pydict) (hr temp : pyval) :
  rounding_ok ->
  dict_get patient_data "Heart_Rate" = Some hr ->
  dict_get patient_data "Temperature" = Some temp ->
  number hr -> number temp -> int_in_range hr -> int_in_range temp ->
  vitals_alarm patient_data = safety_override patient_data "High"
  /\ exists b, vitals_alarm patient_data = Ok b.
Proof.
  intros Hr Hhr Ht Nh Nt Rh Rt.
  assert (B130 : Z.abs 130 < 2 ^ 53) by (simpl; lia).
  assert (B103 : Z.abs 103 < 2 ^ 53) by (simpl; lia).
  destruct (safe_float_gt hr 130 Hr B130 Nh Rh) as (fh & Eh & Gh).
  destruct (safe_float_gt temp 103 Hr B103 Nt Rt) as (ft & Et & Gt).
  destruct (py_gt_number hr 130 Nh) as [bh Hbh].
  destruct (py_gt_number temp 103 Nt) as [bt Hbt].
  unfold vitals_alarm, safety_override, dict_index, get_default.
  rewrite Hhr, Ht. cbn [bind String.eqb Ascii.eqb Bool.eqb].
  rewrite Eh. cbn [bind]. rewrite Gh, Hbh. cbn [bind].
  destruct bh; [split; eauto |].
  rewrite Et. cbn [bind]. rewrite Gt, Hbt. split; eauto.
Qed.

Lemma router_alarm_agrees_with_override_witness :
  vitals_alarm vitals_as_numbers
  = @safety_override ex_builtins vitals_as_numbers "High".
Proof.
  assert (Hr : @rounding_ok ex_builtins).
  { split; [intros a b H; exact H | intros n _; simpl; reflexivity]. }
  exact (proj1 (@router_alarm_agrees_with_override ex_builtins
                  vitals_as_numbers (VInt 150) (VInt 99) Hr
                  eq_refl eq_refl I I eq_refl eq_refl)).
Defined.

(** ** Bands of the priority score *)

Lemma py_round_scaled `{py : Builtins} (c : Q) :
  rounding_ok -> (0 <= c)%Q -> (c <= 1)%Q ->
  0 <= py_round (round64 (c * 20)) <= 20.
Proof.
  intros [Hmono Hint] H0 H1.
  assert (L : (round64 (inject_Z 0) <= round64 (c * 20))%Q).
  { apply Hmono. change (inject_Z 0) with 0%Q.
    apply Qmult_le_0_compat; [exact H0 | discriminate]. }
  assert (U : (round64 (c * 20) <= round64 (inject_Z 20))%Q).
  { apply Hmono. setoid_replace (inject_Z 20) with (1 * 20)%Q by reflexivity.
    apply Qmult_le_compat_r; [exact H1 | discriminate]. }
  rewrite (Hint 0) in L by (simpl; lia).
  rewrite (Hint 20) in U by (simpl; lia).
  apply py_round_mono in L, U.
  change (py_round (inject_Z 0)) with 0 in L.
  change (py_round (inject_Z 20)) with 20 in U. lia.
Qed.

(** X13. For confidences between 0 and 1 the score stays within 20 points
    above the base of its risk label, so the labels order the scores
    whatever the confidences: every "Low" score is below every "Medium"
    score, which is below every "High" score. *)
Theorem priority_score_bands `{py : Builtins} (c1 c2 c3 : Q) :
  rounding_ok ->
  (0 <= c1 <= 1)%Q -> (0 <= c2 <= 1)%Q -> (0 <= c3 <= 1)%Q ->
  25 <= _calculate_priority_score "Low" c1 <= 45
  /\ 55 <= _calculate_priority_score "Medium" c2 <= 75
  /\ 80 <= _calculate_priority_score "High" c3 <= 100
  /\ _calculate_priority_score "Low" c1
     < _calculate_priority_score "Medium" c2
     < _calculate_priority_score "High" c3.
Proof.
  intros Hr [L1 U1] [L2 U2] [L3 U3].
  pose proof (py_round_scaled c1 Hr L1 U1).
  pose proof (py_round_scaled c2 Hr L2 U2).
  pose proof (py_round_scaled c3 Hr L3 U3).
  unfold _calculate_priority_score.
  change (base_score "Low") with 25. change (base_score "Medium") with 55.
  change (base_score "High") with 80. lia.
Qed.

Lemma priority_score_bands_witness :
  @_calculate_priority_score ex_builtins "Low" 1
  < @_calculate_priority_score ex_builtins "Medium" 0.
Proof.
  assert (Hr : @rounding_ok ex_builtins).
  { split; [intros a b H; exact H | intros n _; simpl; reflexivity]. }
  assert (H01 : (0 <= 0 <= 1)%Q) by (split; discriminate).
  assert (H11 : (0 <= 1 <= 1)%Q) by (split; discriminate).
  exact (proj1 (proj2 (proj2 (proj2
           (@priority_score_bands ex_builtins 1 0 0 Hr H11 H01 H01))))).
Defined.

(** ** What the explanation reports *)




Lemma assoc_set_length (d : list (string * Q)) (k : string) (v : Q) :
  (length (assoc_set d k v) <= S (length d))%nat.
Proof.
  induction d as [| [k' v'] d IH]; simpl; [lia |].
  destruct (String.eqb k k'); simpl; lia.
Qed.

Lemma dict_of_pairs_length (l : list (string * Q)) :
  (length (dict_of_pairs l) <= length l)%nat.
Proof.
  unfold dict_of_pairs.
  assert (H : forall acc,
            (length (fold_left (fun d kv => assoc_set d (fst kv) (snd kv)) l acc)
             <= length acc + length l)%nat).
  { induction l as [| kv l IH]; intros acc; simpl; [lia |].
    specialize (IH (assoc_set acc (fst kv) (snd kv))).
    pose proof (assoc_set_length acc (fst kv) (snd kv)). lia. }
  apply (H []).
Qed.

Lemma explain_length `{art : Artefacts} (processed_df : frame)
    (feature_names : list string) :
  (length (explain processed_df feature_names) <= 3)%nat.
Proof.
  unfold explain. eapply Nat.le_trans; [apply dict_of_pairs_length |].
  apply firstn_le_length.
Qed.



(** ** What a returned prediction holds *)

(** X3. Whenever the pipeline returns, the risk level is the label of the
    classifier on the encoded row, the priority score lies in [0, 100],
    there are at most 3 contributors, and the department is "Emergency"
    when the override test holds, else the label of the department model
    when it is not empty, else one of the six departments of the router. *)
Theorem predict_patient_result `{py : Builtins} `{art : Artefacts}
    (patient_input : pydict) (ehr_source_df : option dataframe)
    (res : prediction) :
  predict_patient patient_input ehr_source_df = Ok res ->
  exists df override,
    preprocess patient_input = Ok df
    /\ safety_override patient_input (risk_label_of df) = Ok override
    /\ risk_level res = risk_label_of df
    /\ 0 <= priority_score res <= 100
    /\ (length (top_contributors res) <= 3)%nat
    /\ (override = true -> recommended_department res = "Emergency")
    /\ (override = false ->
        recommended_department res = dept_label_of df
        /\ dept_label_of df <> ""
        \/ dept_label_of df = ""
           /\ In (recommended_department res) departments).
Proof.
  unfold predict_patient. intros H.
  apply bind_Ok in H as (df & Hdf & H).
  apply bind_Ok in H as (pid & _ & H).
  apply bind_Ok in H as (id & _ & H).
  apply bind_Ok in H as (ehr & _ & H).
  apply bind_Ok in H as (routed & Hrouted & H).
  apply bind_Ok in H as (override & Hoverride & H).
  inversion H; subst;
    cbn [recommended_department risk_level priority_score top_contributors].
  exists df, override.
  split; [exact Hdf |]. split; [exact Hoverride |]. split; [reflexivity |].
  split; [unfold _calculate_priority_score; lia |].
  split; [apply explain_length |].
  split; intros ->; [reflexivity |].
  destruct (dept_label_of df) as [| c s] eqn:E; simpl.
  - right. split; [reflexivity |].
    eapply recommend_department_range, Hrouted.
  - left. split; [reflexivity | discriminate].
Qed.

Lemma predict_patient_result_witness :
  exists res,
    @predict_patient ex_builtins ex_artefacts_single vitals_as_numbers
      (Some ehr_complete) = Ok res
    /\ 0 <= priority_score res <= 100.
Proof.
  eexists. split; [reflexivity |].
  destruct (@predict_patient_result ex_builtins ex_artefacts_single
              vitals_as_numbers (Some ehr_complete) _ eq_refl)
    as (df & override & _ & _ & _ & Hs & _).
  exact Hs.
Defined.

(** ** More on dictionaries *)

Lemma dict_set_set (d : pydict) (k : string) (v v' : pyval) :
  dict_set (dict_set d k v) k v' = dict_set d k v'.
Proof.
  induction d as [| [k0 v0] d IH]; simpl.
  - now rewrite String.eqb_refl.
  - destruct (String.eqb k k0) eqn:E; simpl; rewrite E; [reflexivity |].
    now rewrite IH.
Qed.

Lemma dict_set_comm (d : pydict) (k k' : string) (v v' : pyval) :
  k <> k' -> In k (keys d) ->
  dict_set (dict_set d k v) k' v' = dict_set (dict_set d k' v') k v.
Proof.
  intros Hne. induction d as [| [k0 v0] d IH]; simpl; [tauto |].
  intros Hin.
  destruct (String.eqb_spec k k0) as [-> | Hk];
    destruct (String.eqb_spec k' k0) as [-> | Hk']; simpl.
  - congruence.
  - destruct (String.eqb_spec k' k0); [congruence |].
    now rewrite String.eqb_refl.
  - rewrite String.eqb_refl.
    destruct (String.eqb_spec k k0); [congruence | reflexivity].
  - destruct (String.eqb_spec k k0); [congruence |].
    destruct (String.eqb_spec k' k0); [congruence |].
    rewrite IH; [reflexivity |]. destruct Hin as [E | Hin]; [| exact Hin].
    simpl in E. congruence.
Qed.

Lemma dict_remove_set (d : pydict) (k k' : string) (v : pyval) :
  k <> k' -> dict_remove (dict_set d k v) k' = dict_set (dict_remove d k') k v.
Proof.
  intros Hne. unfold dict_remove.
  induction d as [| [k0 v0] d IH]; simpl.
  - destruct (String.eqb_spec k' k); [congruence | reflexivity].
  - destruct (String.eqb_spec k k0) as [-> | Hk]; simpl.
    + destruct (String.eqb_spec k' k0); [congruence |]. simpl.
      now rewrite String.eqb_refl.
    + destruct (String.eqb_spec k' k0); simpl; [exact IH |].
      destruct (String.eqb_spec k k0); [congruence |]. now rewrite IH.
Qed.

Lemma keys_dict_set_present (d : pydict) (k k' : string) (v : pyval) :
  In k (keys d) -> In k (keys (dict_set d k' v)).
Proof.
  intros H. rewrite keys_dict_set. destruct (mem k' (keys d)); [exact H |].
  apply in_or_app. now left.
Qed.

Lemma keys_dict_set_same (d : pydict) (k : string) (v : pyval) :
  In k (keys d) -> keys (dict_set d k v) = keys d.
Proof.
  intros H. rewrite keys_dict_set. apply mem_In in H. now rewrite H.
Qed.

Lemma keys_dict_set_self (d : pydict) (k : string) (v : pyval) :
  In k (keys (dict_set d k v)).
Proof.
  rewrite keys_dict_set. destruct (mem k (keys d)) eqn:E.
  - now apply mem_In.
  - apply in_or_app. right. now left.
Qed.

Lemma keys_dict_remove_present (d : pydict) (k k' : string) :
  k <> k' -> In k (keys d) -> In k (keys (dict_remove d k')).
Proof.
  intros Hne H. unfold dict_remove.
  rewrite (keys_filter (fun x => negb (String.eqb k' x))).
  apply filter_In. split; [exact H |].
  destruct (String.eqb_spec k' k); [congruence | reflexivity].
Qed.




(** ** When [preprocess] returns *)

Lemma safe_float_Ok_range `{py : Builtins} (v default x : pyval) :
  _safe_float v default = Ok x -> int_in_range v.
Proof.
  destruct v as [| b | z | f | s | l | d]; simpl; try exact (fun _ => I).
  unfold _safe_float. simpl.
  destruct (Z.ltb_spec (Z.abs z) float_int_bound); [auto | discriminate].
Qed.

Lemma py_int_Ok_finite `{py : Builtins} (v : pyval) (a : Z) :
  py_int (normal_number v) = Ok a -> finite_number (normal_number v).
Proof.
  destruct v as [| b | z | f | s | l | d]; simpl; try reflexivity;
    try exact (fun _ => I).
  - destruct f; simpl; try reflexivity; discriminate.
  - destruct (float_of_str s) as [f |]; simpl; [| exact (fun _ => I)].
    destruct f; simpl; try reflexivity; discriminate.
Qed.

Ltac dict_simpl_in H :=
  repeat (rewrite ?get_default_set, ?get_default_remove in H;
          cbn [String.eqb Ascii.eqb Bool.eqb] in H).

Lemma preprocess_normalize_Ok `{py : Builtins} (patient_input : pydict)
    (r : list string * pydict) :
  preprocess_normalize patient_input = Ok r ->
  r = (_normalize_symptoms (get_default patient_input "Symptoms" (VList [])),
       normalized_record patient_input)
  /\ (forall k, In k numeric_fields ->
        int_in_range (get_default patient_input k VNone))
  /\ finite_number (normal_number (get_default patient_input "Age" VNone)).
Proof.
  intros H. pose proof H as H0. unfold preprocess_normalize in H.
  cbv zeta in H. dict_simpl_in H.
  apply bind_Ok in H as (age_f & Ha & H). cbv beta in H.
  pose proof (safe_float_Ok_range _ _ _ Ha) as Ra.
  rewrite (safe_float_normal _ Ra) in Ha. inversion Ha; subst age_f.
  apply bind_Ok in H as (age & Hage & H). cbv beta in H.
  pose proof (py_int_Ok_finite _ _ Hage) as Fa.
  dict_simpl_in H.
  apply bind_Ok in H as (bp & Hbp & H). cbv beta in H.
  pose proof (safe_float_Ok_range _ _ _ Hbp) as Rb.
  dict_simpl_in H.
  apply bind_Ok in H as (hr & Hhr & H). cbv beta in H.
  pose proof (safe_float_Ok_range _ _ _ Hhr) as Rh.
  dict_simpl_in H.
  apply bind_Ok in H as (temp & Ht & H). cbv beta in H.
  pose proof (safe_float_Ok_range _ _ _ Ht) as Rt.
  assert (Hrange : forall k, In k numeric_fields ->
            int_in_range (get_default patient_input k VNone)).
  { intros k Hk. simpl in Hk.
    destruct Hk as [<- | [<- | [<- | [<- | []]]]]; assumption. }
  split; [| split; assumption].
  rewrite (preprocess_normalize_run _ Hrange Fa) in H0. now inversion H0.
Qed.

(** X6. [preprocess] returns a row only for a report that has a [Gender]
    key (or when the symptom vocabulary has a symptom of that name): on
    every other report it raises. *)
Theorem preprocess_needs_gender `{py : Builtins} `{art : Artefacts}
    (patient_input : pydict) (df : frame) :
  preprocess patient_input = Ok df ->
  In "Gender" (keys patient_input) \/ In "Gender" symptom_classes.
Proof.
  unfold preprocess. intros H.
  apply bind_Ok in H as (norm & Hn & H). cbv beta zeta in H.
  apply bind_Ok in H as (df1 & Hd & _).
  apply preprocess_normalize_Ok in Hn as (-> & _ & _). simpl in Hd.
  unfold get_dummies in Hd.
  destruct (forallb _ ["Gender"; "Pre_Existing_Conditions"]) eqn:E;
    [| discriminate].
  simpl in E. apply andb_true_iff in E as [E _]. apply mem_In in E.
  unfold columns in E. rewrite map_app in E.
  apply in_app_or in E as [E | E].
  - left. fold (keys (normalized_record patient_input)) in E.
    unfold normalized_record in E.
    repeat (apply keys_dict_set_In in E as [E | E]; [| discriminate]).
    now apply keys_dict_remove_In in E.
  - right. change (map fst (symptoms_encoded ?s))
             with (columns (symptoms_encoded s)) in E.
    now rewrite symptoms_encoded_columns in E.
Qed.

Lemma preprocess_needs_gender_witness :
  In "Gender" (keys malformed_numbers)
  \/ In "Gender" (@symptom_classes ex_artefacts_single).
Proof.
  exact (@preprocess_needs_gender ex_builtins ex_artefacts_single
           malformed_numbers _ eq_refl).
Defined.

(** ** What the encoded row does not depend on *)

Lemma filter_dict_set_dropped (q : string -> bool) (d : pydict)
    (k : string) (v : pyval) :
  q k = false -> In k (keys d) ->
  filter (fun kv => q (fst kv)) (dict_set d k v)
  = filter (fun kv => q (fst kv)) d.
Proof.
  intros Hq. induction d as [| [k0 v0] d IH]; simpl; [tauto |].
  intros Hin. destruct (String.eqb_spec k k0) as [<- | Hne]; simpl.
  - now rewrite Hq.
  - rewrite IH; [reflexivity |]. destruct Hin as [E | Hin]; [congruence | exact Hin].
Qed.

Lemma forallb_filter_dict_set (h : pyval -> bool) (p : string -> bool)
    (d : pydict) (k : string) (v v0 : pyval) :
  dict_get d k = Some v0 -> h v0 = h v ->
  forallb (fun kv => h (snd kv)) (filter (fun kv => p (fst kv)) (dict_set d k v))
  = forallb (fun kv => h (snd kv)) (filter (fun kv => p (fst kv)) d).
Proof.
  intros Hget Hh. induction d as [| [k0 v1] d IH]; simpl in *; [discriminate |].
  destruct (String.eqb_spec k k0) as [<- | Hne]; simpl.
  - inversion Hget; subst. destruct (p k); simpl; [now rewrite Hh | reflexivity].
  - destruct (p k0); simpl; now rewrite IH.
Qed.

Lemma get_dummies_set (d enc : frame) (cols : list string) (k : string)
    (v v0 : pyval) :
  mem k cols = true -> dict_get d k = Some v0 -> hashable v0 = hashable v ->
  get_dummies (dict_set d k v ++ enc)%list cols = get_dummies (d ++ enc)%list cols.
Proof.
  intros Hk Hget Hh. unfold get_dummies.
  assert (Hin : In k (keys d)) by (eapply dict_get_keys; eassumption).
  assert (Hc : columns (dict_set d k v ++ enc)%list = columns (d ++ enc)%list).
  { unfold columns. rewrite !map_app. f_equal.
    now apply keys_dict_set_same. }
  rewrite Hc. destruct (forallb _ cols); [| reflexivity].
  rewrite !filter_app, !forallb_app.
  rewrite (forallb_filter_dict_set hashable (fun x => mem x cols) d k v v0 Hget Hh).
  destruct (forallb _ (filter _ d) && _); [| reflexivity].
  f_equal. f_equal.
  apply (filter_dict_set_dropped (fun x => negb (mem x cols))); [| exact Hin].
  now rewrite Hk.
Qed.

Ltac dict_simpl_goal :=
  repeat (rewrite ?get_default_set, ?get_default_remove;
          cbn [String.eqb Ascii.eqb Bool.eqb]).

Ltac present :=
  repeat first [ assumption
               | apply keys_dict_set_self
               | apply keys_dict_set_present
               | apply keys_dict_remove_present; [discriminate |] ].

Lemma preprocess_normalize_set_gender `{py : Builtins}
    (patient_input : pydict) (g' : pyval) :
  In "Gender" (keys patient_input) ->
  preprocess_normalize (dict_set patient_input "Gender" g')
  = match preprocess_normalize patient_input with
    | Ok (s, p) => Ok (s, dict_set p "Gender" g')
    | Raise e => Raise e
    end.
Proof.
  intros Hin. unfold preprocess_normalize. cbv zeta.
  rewrite !dict_remove_set by discriminate. dict_simpl_goal.
  destruct (_safe_float (get_default patient_input "Age" VNone) (VInt 0))
    as [age_f | e]; cbn [bind]; [| reflexivity].
  destruct (py_int age_f) as [age | e]; cbn [bind]; [| reflexivity].
  dict_simpl_goal.
  destruct (_safe_float (get_default patient_input "Blood_Pressure" VNone)
                        (VInt 0)) as [bp | e]; cbn [bind]; [| reflexivity].
  dict_simpl_goal.
  destruct (_safe_float (get_default patient_input "Heart_Rate" VNone)
                        (VInt 0)) as [hr | e]; cbn [bind]; [| reflexivity].
  dict_simpl_goal.
  destruct (_safe_float (get_default patient_input "Temperature" VNone)
                        (VInt 0)) as [temp | e]; cbn [bind]; [| reflexivity].
  f_equal. f_equal.
  repeat (rewrite (dict_set_comm _ "Gender") by (first [discriminate | present])).
  reflexivity.
Qed.

(** X7. The encoded row does not depend on the value of [Gender]: two
    reports that differ only in a gender value that can be hashed are
    encoded alike (the indicator columns of a one-row table are all
    dropped, so every declared [Gender_...] column is the padding zero). *)
Theorem preprocess_ignores_gender `{py : Builtins} `{art : Artefacts}
    (patient_input : pydict) (g g' : pyval) :
  dict_get patient_input "Gender" = Some g ->
  hashable g = true -> hashable g' = true ->
  preprocess (dict_set patient_input "Gender" g') = preprocess patient_input.
Proof.
  intros Hg Hh Hh'. unfold preprocess.
  rewrite preprocess_normalize_set_gender
    by (eapply dict_get_keys; eassumption).
  destruct (preprocess_normalize patient_input) as [[s p] | e] eqn:E;
    cbn [bind fst snd]; [| reflexivity].
  apply preprocess_normalize_Ok in E as (E & _ & _). inversion E; subst.
  rewrite (get_dummies_set _ _ _ "Gender" g' g); try reflexivity.
  - now rewrite normalized_record_gender.
  - congruence.
Qed.

Lemma preprocess_ignores_gender_witness :
  @preprocess ex_builtins ex_artefacts_single
     (dict_set malformed_numbers "Gender" (VStr "Male"))
  = @preprocess ex_builtins ex_artefacts_single malformed_numbers.
Proof.
  exact (@preprocess_ignores_gender ex_builtins ex_artefacts_single
           malformed_numbers (VStr "Female") (VStr "Male")
           eq_refl eq_refl eq_refl).
Defined.

Lemma preprocess_normalize_set_conditions `{py : Builtins}
    (patient_input : pydict) (v : pyval) :
  exists c,
    preprocess_normalize (dict_set patient_input "Pre_Existing_Conditions" v)
    = match preprocess_normalize patient_input with
      | Ok (s, p) => Ok (s, dict_set p "Pre_Existing_Conditions" (VStr c))
      | Raise e => Raise e
      end.
Proof.
  exists (match _normalize_conditions v with c :: _ => c | [] => "None" end).
  unfold preprocess_normalize. cbv zeta.
  rewrite !dict_remove_set by discriminate. dict_simpl_goal.
  rewrite dict_set_set.
  destruct (_safe_float (get_default patient_input "Age" VNone) (VInt 0))
    as [age_f | e]; cbn [bind]; [| reflexivity].
  destruct (py_int age_f) as [age | e]; cbn [bind]; [| reflexivity].
  dict_simpl_goal.
  destruct (_safe_float (get_default patient_input "Blood_Pressure" VNone)
                        (VInt 0)) as [bp | e]; cbn [bind]; [| reflexivity].
  dict_simpl_goal.
  destruct (_safe_float (get_default patient_input "Heart_Rate" VNone)
                        (VInt 0)) as [hr | e]; cbn [bind]; [| reflexivity].
  dict_simpl_goal.
  destruct (_safe_float (get_default patient_input "Temperature" VNone)
                        (VInt 0)) as [temp | e]; cbn [bind]; [| reflexivity].
  f_equal. f_equal.
  repeat (rewrite <- (dict_set_comm _ "Pre_Existing_Conditions")
            by (first [discriminate | present])).
  now rewrite dict_set_set.
Qed.

(** X8. The encoded row does not depend on [Pre_Existing_Conditions]:
    writing any value under that key of a report leaves the result of
    [preprocess] unchanged (the column is dropped with its only level, so
    every declared [Pre_Existing_Conditions_...] column is the padding
    zero). *)
Theorem preprocess_ignores_conditions `{py : Builtins} `{art : Artefacts}
    (patient_input : pydict) (v : pyval) :
  preprocess (dict_set patient_input "Pre_Existing_Conditions" v)
  = preprocess patient_input.
Proof.
  unfold preprocess.
  destruct (preprocess_normalize_set_conditions patient_input v) as [c ->].
  destruct (preprocess_normalize patient_input) as [[s p] | e] eqn:E;
    cbn [bind fst snd]; [| reflexivity].
  apply preprocess_normalize_Ok in E as (E & _ & _). inversion E; subst.
  destruct (normalized_record_conditions patient_input) as [c0 Hc0].
  now rewrite (get_dummies_set _ _ _ "Pre_Existing_Conditions"
                 (VStr c) (VStr c0)).
Qed.

(** ** The cells of the encoded row *)





Lemma preprocess_Ok `{py : Builtins} `{art : Artefacts}
    (patient_input : pydict) (df : frame) :
  preprocess patient_input = Ok df ->
  df = select_columns
         (pad_columns
            (filter (fun kv => negb (mem (fst kv)
                                      ["Gender"; "Pre_Existing_Conditions"]))
                    (normalized_record patient_input
                     ++ symptoms_encoded
                          (_normalize_symptoms
                             (get_default patient_input "Symptoms"
                                          (VList []))))%list)
            feature_names_in_)
         feature_names_in_.
Proof.
  unfold preprocess. intros H.
  apply bind_Ok in H as (norm & Hn & H). cbv beta zeta in H.
  apply bind_Ok in H as (df1 & Hd & H).
  apply preprocess_normalize_Ok in Hn as (-> & _ & _). cbn [fst snd] in Hd.
  unfold get_dummies in Hd.
  destruct (forallb _ ["Gender"; "Pre_Existing_Conditions"]);
    [| discriminate].
  destruct (forallb _ (filter _ _)); [| discriminate].
  inversion Hd; subst df1. now inversion H.
Qed.



(** ** The summary of a matching row *)

Lemma py_int_visits `{py : Builtins} (v : pyval) :
  visits_cell v -> exists n, py_int (py_or v (VInt 0)) = Ok n.
Proof.
  unfold py_or.
  destruct v as [| b | z | f | s | l | d]; simpl; try contradiction;
    intros H.
  - eexists; reflexivity.
  - destruct b; eexists; reflexivity.
  - destruct (z =? 0); eexists; reflexivity.
  - destruct f; try contradiction.
    destruct (Qeq_bool q 0); eexists; reflexivity.
Qed.

Lemma py_float_average `{py : Builtins} (v : pyval) :
  average_cell v -> exists f, py_float (py_or v (VInt 0)) = Ok f.
Proof.
  unfold py_or.
  destruct v as [| b | z | f | s | l | d]; simpl; try contradiction;
    intros H.
  - eexists; reflexivity.
  - destruct b; eexists; reflexivity.
  - destruct (z =? 0); simpl; [eexists; reflexivity |].
    apply Z.ltb_lt in H. rewrite H. eexists; reflexivity.
  - destruct f as [q | | |]; simpl; try (eexists; reflexivity).
    destruct (Qeq_bool q 0); eexists; reflexivity.
Qed.

Lemma py_str_text `{py : Builtins} (v : pyval) (default : string) :
  text_cell v -> default <> "" ->
  py_str (py_or v (VStr default)) <> "".
Proof.
  unfold py_or.
  destruct v as [| b | z | f | s | l | d]; simpl; try contradiction;
    intros _ Hd; [exact Hd |].
  destruct s; simpl; [exact Hd | discriminate].
Qed.







(** * Properties of the other modules

    ** ehr_store.py: normal forms of column labels *)

Lemma lower_alnum_fixed (c : ascii) :
  is_lower_alnum c = true ->
  PyStr.is_space c = false /\ lower_char c = c.
Proof.
  destruct c as [[] [] [] [] [] [] [] []]; vm_compute; intros H;
    first [discriminate H | split; reflexivity].
Qed.

Lemma keep_lower_alnum_all (s : string) : all_lower_alnum (keep_lower_alnum s).
Proof.
  unfold all_lower_alnum. induction s as [| c s IH]; simpl; [constructor |].
  destruct (is_lower_alnum c) eqn:E; simpl; [constructor |]; assumption.
Qed.

Lemma keep_lower_alnum_fixed (s : string) :
  all_lower_alnum s -> keep_lower_alnum s = s.
Proof.
  unfold all_lower_alnum. induction s as [| c s IH]; simpl; [reflexivity |].
  intros H. inversion H as [| ? ? Hc Hs]; subst. rewrite Hc. now rewrite IH.
Qed.

Lemma str_lower_fixed (s : string) : all_lower_alnum s -> str_lower s = s.
Proof.
  unfold all_lower_alnum. induction s as [| c s IH]; simpl; [reflexivity |].
  intros H. inversion H as [| ? ? Hc Hs]; subst.
  rewrite (proj2 (lower_alnum_fixed c Hc)). now rewrite IH.
Qed.

Lemma rstrip_fixed (s : string) : all_lower_alnum s -> PyStr.rstrip s = s.
Proof.
  unfold all_lower_alnum. induction s as [| c s IH]; simpl; [reflexivity |].
  intros H. inversion H as [| ? ? Hc Hs]; subst. rewrite (IH Hs).
  destruct s; [| reflexivity].
  now rewrite (proj1 (lower_alnum_fixed c Hc)).
Qed.

Lemma strip_fixed (s : string) : all_lower_alnum s -> PyStr.strip s = s.
Proof.
  intros H. unfold PyStr.strip.
  assert (Hl : PyStr.lstrip s = s).
  { destruct s as [| c s]; [reflexivity |]. simpl.
    inversion H as [| ? ? Hc Hs]; subst.
    now rewrite (proj1 (lower_alnum_fixed c Hc)). }
  rewrite Hl. now apply rstrip_fixed.
Qed.

Lemma all_lower_alnum_no_underscore (s : string) :
  all_lower_alnum s -> PyStr.contains "_" s = false.
Proof.
  unfold all_lower_alnum.
  induction s as [| c s IH]; [reflexivity |]. cbn [list_ascii_of_string].
  intros H. inversion H as [| ? ? Hc Hs]; subst.
  change (PyStr.contains "_" (String c s))
    with (if prefix "_" (String c s) then true else PyStr.contains "_" s).
  rewrite (IH Hs). cbn [prefix].
  destruct (ascii_dec "_" c) as [<- | _]; [discriminate Hc | reflexivity].
Qed.

(** X18. The normal form of a column label holds only the characters
    [a-z] and [0-9]; normalising it again changes nothing; so an alias
    written with an underscore is the normal form of no label. *)
Theorem norm_is_a_normal_form `{py : Builtins} (text : pyval) :
  all_lower_alnum (_norm text)
  /\ _norm (VStr (_norm text)) = _norm text
  /\ forall alias, PyStr.contains "_" alias = true -> _norm text <> alias.
Proof.
  assert (H : all_lower_alnum (_norm text)) by apply keep_lower_alnum_all.
  split; [exact H |]. split.
  - unfold _norm at 1. cbn [py_str].
    now rewrite (strip_fixed _ H), (str_lower_fixed _ H),
                (keep_lower_alnum_fixed _ H).
  - intros alias Ha E. rewrite <- E in Ha.
    rewrite (all_lower_alnum_no_underscore _ H) in Ha. discriminate.
Qed.

(** ** ehr_store.py: mapping the columns *)

Lemma str_get_set (d : list (string * string)) (k k' v : string) :
  str_get (str_set d k v) k'
  = if String.eqb k' k then Some v else str_get d k'.
Proof.
  induction d as [| [k0 v0] d IH]; simpl.
  - destruct (String.eqb k' k); reflexivity.
  - destruct (String.eqb_spec k k0) as [-> | Hne]; simpl.
    + destruct (String.eqb k' k0); reflexivity.
    + rewrite IH. destruct (String.eqb_spec k' k0) as [-> | _];
        [| reflexivity].
      destruct (String.eqb_spec k0 k); [congruence | reflexivity].
Qed.

Section Existing.

Variable f : string -> string.

Let build (cols : list string) (d0 : list (string * string)) :=
  fold_left (fun d col => str_set d (f col) col) cols d0.

Lemma existing_sound (cols : list string) (d0 : list (string * string))
    (a c : string) :
  str_get (build cols d0) a = Some c ->
  (In c cols /\ f c = a) \/ str_get d0 a = Some c.
Proof.
  revert d0. induction cols as [| col cols IH]; intros d0 H; simpl in *;
    [now right |].
  apply IH in H as [[H1 H2] | H]; [left; tauto |].
  rewrite str_get_set in H.
  destruct (String.eqb_spec a (f col)) as [-> | _]; [| now right].
  inversion H; subst. left. split; [now left | reflexivity].
Qed.

Lemma existing_keeps (cols : list string) (d0 : list (string * string))
    (k x : string) :
  str_get d0 k = Some x -> exists c, str_get (build cols d0) k = Some c.
Proof.
  revert d0 x. induction cols as [| col cols IH]; intros d0 x H; simpl;
    [eauto |].
  destruct (String.eqb_spec k (f col)) as [E | Hne].
  - apply (IH _ col). rewrite str_get_set, E. now rewrite String.eqb_refl.
  - apply (IH _ x). rewrite str_get_set.
    destruct (String.eqb_spec k (f col)); [contradiction | exact H].
Qed.

Lemma existing_complete (cols : list string) (d0 : list (string * string))
    (col : string) :
  In col cols -> exists c, str_get (build cols d0) (f col) = Some c.
Proof.
  revert d0. induction cols as [| col0 cols IH]; intros d0 H; simpl in *;
    [contradiction |].
  destruct H as [-> | H]; [| now apply IH].
  apply (existing_keeps cols _ _ col).
  rewrite str_get_set. now rewrite String.eqb_refl.
Qed.

End Existing.

Lemma first_existing_sound (existing : list (string * string))
    (aliases : list string) (col : string) :
  first_existing existing aliases = Some col ->
  exists a, In a aliases /\ str_get existing a = Some col /\ col <> "".
Proof.
  induction aliases as [| a rest IH]; simpl; [discriminate |].
  destruct (str_get existing a) as [c |] eqn:E.
  - destruct c as [| ch c']; simpl.
    + intros H. destruct (IH H) as (a' & ? & ? & ?). exists a'. tauto.
    + intros H. inversion H; subst. exists a.
      repeat split; [now left | exact E | discriminate].
  - intros H. destruct (IH H) as (a' & ? & ? & ?). exists a'. tauto.
Qed.

Lemma first_existing_complete (existing : list (string * string))
    (aliases : list string) (a col : string) :
  In a aliases -> str_get existing a = Some col -> col <> "" ->
  exists col', first_existing existing aliases = Some col'.
Proof.
  induction aliases as [| a0 rest IH]; simpl; [contradiction |].
  intros [-> | Hin] Hget Hne.
  - rewrite Hget. destruct col; [contradiction | simpl; eauto].
  - destruct (str_get existing a0) as [c |]; [| now apply IH].
    destruct c; simpl; [now apply IH | eauto].
Qed.

Section RenameMap.

Variable existing : list (string * string).

Let step (rename_map : list (string * string))
         (entry : string * list string) :=
  match first_existing existing (snd entry) with
  | Some col => str_set rename_map col (fst entry)
  | None => rename_map
  end.

Lemma rename_fold_preserve (L : list (string * list string))
    (rm : list (string * string)) (col : string) :
  (forall e col', In e L -> pick existing e = Some col' -> col' <> col) ->
  str_get (fold_left step L rm) col = str_get rm col.
Proof.
  revert rm. induction L as [| e L IH]; intros rm H; simpl; [reflexivity |].
  rewrite IH by (intros e' c' He'; apply H; now right).
  unfold step. destruct (first_existing existing (snd e)) as [c |] eqn:E;
    [| reflexivity].
  rewrite str_get_set.
  destruct (String.eqb_spec col c) as [-> | _]; [| reflexivity].
  exfalso. now apply (H e c (or_introl eq_refl) E).
Qed.

Lemma rename_fold_hit (L : list (string * list string))
    (rm : list (string * string)) (entry : string * list string)
    (col : string) :
  ForallOrdPairs
    (fun e e' => forall c c', pick existing e = Some c ->
                              pick existing e' = Some c' -> c <> c') L ->
  In entry L -> pick existing entry = Some col ->
  str_get (fold_left step L rm) col = Some (fst entry).
Proof.
  intros HD. revert rm. induction HD as [| e L Hhead HD IH]; intros rm Hin Hp;
    [contradiction |].
  simpl. destruct Hin as [-> | Hin]; [| now apply IH].
  rewrite rename_fold_preserve.
  - unfold step. unfold pick in Hp. rewrite Hp, str_get_set.
    now rewrite String.eqb_refl.
  - intros e' c' He' Hc' Heq. subst c'.
    rewrite Forall_forall in Hhead. exact (Hhead e' He' col col Hp Hc' eq_refl).
Qed.

Lemma rename_fold_sound (L : list (string * list string))
    (rm : list (string * string)) (col canonical : string) :
  str_get (fold_left step L rm) col = Some canonical ->
  (exists entry, In entry L /\ fst entry = canonical
                 /\ pick existing entry = Some col)
  \/ str_get rm col = Some canonical.
Proof.
  revert rm. induction L as [| e L IH]; intros rm H; simpl in *;
    [now right |].
  apply IH in H as [(entry & H1 & H2 & H3) | H].
  - left. exists entry. tauto.
  - unfold step in H.
    destruct (first_existing existing (snd e)) as [c |] eqn:E; [| now right].
    rewrite str_get_set in H.
    destruct (String.eqb_spec col c) as [-> | _]; [| now right].
    inversion H. left. exists e. repeat split; [now left | exact E].
Qed.

End RenameMap.

Lemma disjointb_sound (l1 l2 : list string) (a : string) :
  disjointb l1 l2 = true -> In a l1 -> In a l2 -> False.
Proof.
  unfold disjointb. rewrite forallb_forall. intros H H1 H2.
  apply H in H1. apply mem_In in H2. rewrite H2 in H1. discriminate.
Qed.

Lemma aliases_disjoint :
  ForallOrdPairs (fun e e' => disjointb (snd e) (snd e') = true) _ALIASES.
Proof. repeat constructor. Qed.

Lemma ForallOrdPairs_weaken {A : Type} (R R' : A -> A -> Prop) (l : list A) :
  (forall a b, R a b -> R' a b) -> ForallOrdPairs R l -> ForallOrdPairs R' l.
Proof.
  intros Himp. induction 1 as [| a l Hhead _ IH]; constructor; [| exact IH].
  eapply Forall_impl; [| exact Hhead]. intros b. apply Himp.
Qed.

Lemma pick_norm `{py : Builtins} (cols : list string)
    (entry : string * list string) (col : string) :
  pick (normalized_existing cols) entry = Some col ->
  In col cols /\ In (_norm (VStr col)) (snd entry).
Proof.
  intros H. apply first_existing_sound in H as (a & Ha & Hget & _).
  apply (existing_sound (fun c => _norm (VStr c))) in Hget
    as [[H1 H2] | H]; [| discriminate].
  split; [exact H1 | now rewrite H2].
Qed.

Lemma picks_distinct `{py : Builtins} (cols : list string) :
  ForallOrdPairs
    (fun e e' => forall c c',
         pick (normalized_existing cols) e = Some c ->
         pick (normalized_existing cols) e' = Some c' -> c <> c')
    _ALIASES.
Proof.
  eapply ForallOrdPairs_weaken; [| apply aliases_disjoint].
  intros e e' Hd c c' Hc Hc' <-.
  apply pick_norm in Hc as [_ Hc]. apply pick_norm in Hc' as [_ Hc'].
  exact (disjointb_sound _ _ _ Hd Hc Hc').
Qed.

Lemma fill_required_keeps (required : list string) (df : dataframe)
    (c : string) :
  In c (df_columns df) -> In c (df_columns (fill_required df required)).
Proof.
  revert df. induction required as [| r required IH]; intros df H; simpl;
    [exact H |].
  apply IH. destruct (mem r (df_columns df)); [exact H |].
  destruct (default_cell r); [| exact H].
  simpl. apply in_or_app. now left.
Qed.

Lemma fill_required_adds (required : list string) (df : dataframe)
    (c : string) (v : pyval) :
  In c required -> default_cell c = Some v ->
  In c (df_columns (fill_required df required)).
Proof.
  revert df. induction required as [| r required IH]; intros df H Hd; simpl;
    [contradiction |].
  destruct H as [-> | H]; [| now apply IH].
  apply fill_required_keeps.
  destruct (mem c (df_columns df)) eqn:E; [now apply mem_In |].
  rewrite Hd. simpl. apply in_or_app. right. now left.
Qed.

Lemma fill_required_origin (required : list string) (df : dataframe)
    (c : string) :
  In c (df_columns (fill_required df required)) ->
  In c (df_columns df) \/ default_cell c <> None.
Proof.
  revert df. induction required as [| r required IH]; intros df H; simpl in *;
    [now left |].
  apply IH in H as [H | H]; [| now right].
  destruct (mem r (df_columns df)); [now left |].
  destruct (default_cell r) eqn:E; [| now left].
  simpl in H. apply in_app_or in H as [H | [<- | []]]; [now left |].
  right. congruence.
Qed.

Lemma fill_required_rows (required : list string) (df : dataframe) :
  length (df_rows (fill_required df required)) = length (df_rows df).
Proof.
  revert df. induction required as [| r required IH]; intros df; simpl;
    [reflexivity |].
  rewrite IH. destruct (mem r (df_columns df)); [reflexivity |].
  destruct (default_cell r); [| reflexivity]. simpl. apply length_map.
Qed.

Lemma fill_required_rectangular (required : list string) (df : dataframe) :
  rectangular df -> rectangular (fill_required df required).
Proof.
  revert df. induction required as [| r required IH]; intros df H; simpl;
    [exact H |].
  apply IH. destruct (mem r (df_columns df)); [exact H |].
  destruct (default_cell r); [| exact H].
  intros row Hrow. simpl in *. apply in_map_iff in Hrow as (row0 & <- & Hin).
  rewrite !length_app. simpl. now rewrite (H row0 Hin).
Qed.

(** X19. After the columns of an uploaded dataset are mapped, every
    required column other than the patient identifier is there (renamed
    from an alias, or filled with its default), the rows are as many as
    before, and a table with one cell per column in every row stays so. *)
Theorem map_columns_required `{py : Builtins} (df : dataframe) :
  (forall c, In c _REQUIRED_COLUMNS -> c <> "Patient_ID" ->
             In c (df_columns (_map_columns df)))
  /\ length (df_rows (_map_columns df)) = length (df_rows df)
  /\ (rectangular df -> rectangular (_map_columns df)).
Proof.
  unfold _map_columns. cbv zeta. split; [| split].
  - intros c Hc Hne.
    assert (Hd : exists v, default_cell c = Some v).
    { simpl in Hc.
      destruct Hc as [<- | [<- | [<- | [<- | [<- | [<- | []]]]]]];
        try contradiction; vm_compute; eauto. }
    destruct Hd as [v Hv]. eapply fill_required_adds; eassumption.
  - now rewrite fill_required_rows.
  - intros H. apply fill_required_rectangular.
    intros row Hrow. simpl in *. rewrite length_map. now apply H.
Qed.

Lemma norm_empty `{py : Builtins} : _norm (VStr "") = "".
Proof. reflexivity. Qed.

Lemma map_columns_recognises `{py : Builtins} (cols : list string)
    (entry : string * list string) (a col : string) :
  In entry _ALIASES -> In a (snd entry) -> a <> "" ->
  In col cols -> _norm (VStr col) = a ->
  exists col',
    In col' cols /\ In (_norm (VStr col')) (snd entry)
    /\ rename_label (rename_map_of (normalized_existing cols)) col'
       = fst entry.
Proof.
  intros He Ha Hne Hcol Hnorm.
  destruct (existing_complete (fun c => _norm (VStr c)) cols [] col Hcol)
    as [c Hc].
  fold (normalized_existing cols) in Hc. rewrite Hnorm in Hc.
  assert (Hcne : c <> "").
  { intros ->.
    apply (existing_sound (fun c => _norm (VStr c))) in Hc
      as [[_ H] | H]; [| discriminate].
    rewrite norm_empty in H. congruence. }
  destruct (first_existing_complete _ _ _ _ Ha Hc Hcne) as [col' Hpick].
  exists col'. destruct (pick_norm cols entry col' Hpick) as [H1 H2].
  split; [exact H1 |]. split; [exact H2 |].
  unfold rename_label, rename_map_of.
  now rewrite (rename_fold_hit _ _ _ entry col' (picks_distinct cols) He Hpick).
Qed.

(** X20. The mapped dataset has a [Patient_ID] column exactly when some
    column of the upload has the normal form [patientid], [id] or
    [patient]: the identifier is recognised under these names whatever the
    case, the spaces and the punctuation of the label, and is never filled
    in. *)
Theorem map_columns_patient_id `{py : Builtins} (df : dataframe) :
  In "Patient_ID" (df_columns (_map_columns df))
  <-> exists col, In col (df_columns df)
                  /\ In (_norm (VStr col)) ["patientid"; "id"; "patient"].
Proof.
  unfold _map_columns. cbv zeta. split.
  - intros H. apply fill_required_origin in H as [H | H];
      [| exfalso; apply H; reflexivity].
    simpl in H. apply in_map_iff in H as (col & Hren & Hcol).
    exists col. split; [exact Hcol |].
    unfold rename_label in Hren.
    destruct (str_get _ col) as [canonical |] eqn:E.
    + subst canonical. unfold rename_map_of in E.
      apply rename_fold_sound in E as [(entry & He & Hf & Hp) | E];
        [| discriminate].
      apply pick_norm in Hp as [_ Hp].
      simpl in He.
      destruct He as [<- | [<- | [<- | [<- | [<- | [<- | []]]]]]];
        try discriminate Hf.
      simpl in Hp. simpl.
      destruct Hp as [Hp | [Hp | Hp]]; [tauto | | tauto].
      exfalso.
      pose proof (all_lower_alnum_no_underscore _
                    (keep_lower_alnum_all
                       (str_lower (PyStr.strip (py_str (VStr col)))))) as Hu.
      fold (_norm (VStr col)) in Hu. rewrite <- Hp in Hu. discriminate Hu.
    + subst col. left. reflexivity.
  - intros (col & Hcol & Hn).
    assert (Ha : In (_norm (VStr col))
                    (snd ("Patient_ID",
                          ["patientid"; "patient_id"; "id"; "patient"])))
      by (simpl in *; tauto).
    assert (Hne : _norm (VStr col) <> "").
    { simpl in Hn. destruct Hn as [<- | [<- | [<- | []]]]; discriminate. }
    destruct (map_columns_recognises (df_columns df) _ _ col
                (or_introl eq_refl) Ha Hne Hcol eq_refl)
      as (col' & H1 & _ & H3).
    apply fill_required_keeps. simpl.
    apply in_map_iff. exists col'. split; [exact H3 | exact H1].
Qed.

(** ** database.py: the next patient identifier *)

(** X21. The next patient identifier is at least 1001 and, when the
    largest stored identifier is an integer, strictly above it; null, text
    that is no number and NaN give 1001; only an infinite stored value
    makes the function raise. *)
Theorem next_patient_id_fresh `{py : Builtins} (max_patient_id : pyval) :
  (forall n, get_next_patient_id max_patient_id = Ok n -> 1001 <= n)
  /\ (forall m, max_patient_id = VInt m ->
        get_next_patient_id max_patient_id = Ok (Z.max 1001 (m + 1))
        /\ m < Z.max 1001 (m + 1))
  /\ (max_patient_id = VNone \/ max_patient_id = VFloat FNaN ->
        get_next_patient_id max_patient_id = Ok 1001)
  /\ (forall e, get_next_patient_id max_patient_id = Raise e ->
        e = OverflowError
        /\ (max_patient_id = VFloat FPosInf
            \/ max_patient_id = VFloat FNegInf)).
Proof.
  repeat split.
  - intros n H. unfold get_next_patient_id in H.
    destruct max_patient_id; try (inversion H; lia);
      apply bind_Ok in H as (x & _ & H); inversion H; lia.
  - subst. reflexivity.
  - lia.
  - intros [-> | ->]; reflexivity.
  - revert H. unfold get_next_patient_id.
    destruct max_patient_id as [| b | z | f | s | l | d]; simpl;
      try discriminate.
    + destruct f; simpl; try discriminate; intros H; now inversion H.
    + destruct (int_of_str s); simpl; discriminate.
  - revert H. unfold get_next_patient_id.
    destruct max_patient_id as [| b | z | f | s | l | d]; simpl;
      try discriminate.
    + destruct f; simpl; try discriminate; auto.
    + destruct (int_of_str s); simpl; discriminate.
Qed.

(** ** main.py: the bearer token *)

Lemma prefix_app (p s : string) :
  prefix p s = true -> exists t, s = p ++ t.
Proof.
  revert s. induction p as [| c p IH]; intros s H; [now exists s |].
  destruct s as [| c' s]; [discriminate |]. cbn [prefix] in H.
  destruct (ascii_dec c c') as [<- | _]; [| discriminate].
  destruct (IH s H) as [t ->]. now exists t.
Qed.

Lemma prefix_refl_app (p t : string) : prefix p (p ++ t) = true.
Proof.
  induction p as [| c p IH]; [now destruct t |]. cbn [append prefix].
  destruct (ascii_dec c c); [exact IH | congruence].
Qed.

Lemma bearer_prefix (header : string) :
  prefix "Bearer " header = true ->
  exists token, header = "Bearer " ++ token
                /\ after_first_space header = Some token.
Proof.
  intros H. destruct (prefix_app _ _ H) as [token ->].
  exists token. split; reflexivity.
Qed.

(** X22. A request is authorised exactly when its header is "Bearer "
    followed by a token that the session lookup knows, and the token
    looked up is all the text after that prefix, spaces included; a
    missing header or another prefix is refused with status 401 before
    any lookup. *)
Theorem authorized_user_bearer {User : Type}
    (get_user_by_token : string -> option User)
    (authorization : option string) :
  (forall user,
      _authorized_user get_user_by_token authorization = Respond user
      <-> exists token, authorization = Some ("Bearer " ++ token)
                        /\ get_user_by_token token = Some user)
  /\ ((authorization = None
       \/ exists header, authorization = Some header
                         /\ prefix "Bearer " header = false) ->
      _authorized_user get_user_by_token authorization
      = HTTPException 401 "Unauthorized")
  /\ (forall exception,
        _authorized_user get_user_by_token authorization
        <> Escapes exception).
Proof.
  split; [| split].
  - intros user. split.
    + unfold _authorized_user. destruct authorization as [header |];
        [| discriminate].
      destruct (PyStr.nonempty header); simpl; [| discriminate].
      destruct (prefix "Bearer " header) eqn:E; simpl; [| discriminate].
      destruct (bearer_prefix header E) as (token & Hh & Ht).
      rewrite Ht. subst header.
      destruct (get_user_by_token token) eqn:L; [| discriminate].
      intros H. inversion H; subst. exists token. split; [reflexivity | exact L].
    + intros (token & -> & L). unfold _authorized_user.
      rewrite prefix_refl_app. simpl. now rewrite L.
  - intros [-> | (header & -> & E)]; [reflexivity |].
    unfold _authorized_user. rewrite E. now rewrite orb_true_r.
  - intros exception. unfold _authorized_user.
    destruct authorization as [header |]; [| discriminate].
    destruct (PyStr.nonempty header); simpl; [| discriminate].
    destruct (prefix "Bearer " header) eqn:E; simpl; [| discriminate].
    destruct (bearer_prefix header E) as (token & _ & ->).
    destruct (get_user_by_token token); discriminate.
Qed.

(** ** Canonical lists *)

Lemma lstrip_head (s : string) :
  PyStr.lstrip s = ""
  \/ exists c t, PyStr.lstrip s = String c t /\ PyStr.is_space c = false.
Proof.
  induction s as [| c s IH]; simpl; [now left |].
  destruct (PyStr.is_space c) eqn:E; [exact IH |].
  right. exists c, s. split; [reflexivity | exact E].
Qed.

Lemma rstrip_cons (c : ascii) (s : string) :
  PyStr.rstrip (String c s)
  = match PyStr.rstrip s with
    | EmptyString =>
        if PyStr.is_space c then EmptyString else String c EmptyString
    | r => String c r
    end.
Proof. reflexivity. Qed.

Lemma rstrip_idem (s : string) : PyStr.rstrip (PyStr.rstrip s) = PyStr.rstrip s.
Proof.
  induction s as [| c s IH]; [reflexivity |]. rewrite rstrip_cons.
  destruct (PyStr.rstrip s) as [| c' r] eqn:E.
  - destruct (PyStr.is_space c) eqn:Ec; [reflexivity |].
    rewrite rstrip_cons. simpl. now rewrite Ec.
  - rewrite rstrip_cons, IH. reflexivity.
Qed.

Lemma rstrip_head (c : ascii) (t : string) :
  PyStr.is_space c = false ->
  exists r, PyStr.rstrip (String c t) = String c r.
Proof.
  intros E. rewrite rstrip_cons.
  destruct (PyStr.rstrip t); [rewrite E |]; eauto.
Qed.

Lemma strip_idem (s : string) : PyStr.strip (PyStr.strip s) = PyStr.strip s.
Proof.
  unfold PyStr.strip.
  destruct (lstrip_head s) as [-> | (c & t & -> & E)]; [reflexivity |].
  destruct (rstrip_head c t E) as [r Hr].
  assert (Hl : PyStr.lstrip (PyStr.rstrip (String c t))
               = PyStr.rstrip (String c t)).
  { rewrite Hr. simpl. now rewrite E. }
  rewrite Hl. apply rstrip_idem.
Qed.

Lemma has_comma_lstrip (s : string) :
  PyStr.has_comma s = false -> PyStr.has_comma (PyStr.lstrip s) = false.
Proof.
  induction s as [| c s IH]; simpl; [reflexivity |].
  intros H. apply orb_false_iff in H as [Hc Hs].
  destruct (PyStr.is_space c); [now apply IH |].
  simpl. now rewrite Hc, Hs.
Qed.

Lemma has_comma_rstrip (s : string) :
  PyStr.has_comma s = false -> PyStr.has_comma (PyStr.rstrip s) = false.
Proof.
  induction s as [| c s IH]; [reflexivity |].
  rewrite rstrip_cons. cbn [PyStr.has_comma].
  intros H. apply orb_false_iff in H as [Hc Hs]. specialize (IH Hs).
  destruct (PyStr.rstrip s) as [| c' r].
  - destruct (PyStr.is_space c); [reflexivity |]. simpl. now rewrite Hc.
  - change (PyStr.has_comma (String c (String c' r)))
      with (Ascii.eqb c PyStr.comma || PyStr.has_comma (String c' r)).
    now rewrite Hc, IH.
Qed.

Lemma has_comma_strip (s : string) :
  PyStr.has_comma s = false -> PyStr.has_comma (PyStr.strip s) = false.
Proof. intros H. now apply has_comma_rstrip, has_comma_lstrip. Qed.

Lemma split_comma_pieces (s : string) :
  Forall (fun x => PyStr.has_comma x = false) (PyStr.split_comma s).
Proof.
  induction s as [| c s IH]; simpl; [repeat constructor |].
  destruct (Ascii.eqb c PyStr.comma) eqn:E.
  - constructor; [reflexivity | exact IH].
  - destruct (PyStr.split_comma s) as [| w ws]; [repeat constructor; simpl; now rewrite E |].
    inversion IH; subst. constructor; [| assumption].
    simpl. rewrite E. assumption.
Qed.

Lemma canonical_entries (f : string -> string) (l : list string) :
  (forall x, PyStr.strip (f x) = f x) ->
  map PyStr.strip
      (filter (fun x => PyStr.nonempty (PyStr.strip x))
              (map f (filter (fun x => PyStr.nonempty (f x)) l)))
  = map f (filter (fun x => PyStr.nonempty (f x)) l).
Proof.
  intros Hf. induction l as [| x l IH]; simpl; [reflexivity |].
  destruct (PyStr.nonempty (f x)) eqn:E; simpl; [| exact IH].
  rewrite Hf, E. simpl. now rewrite Hf, IH.
Qed.

Lemma map_filter_strip {A : Type} (f : A -> string) (l : list A) :
  map (fun item => PyStr.strip (f item))
      (filter (fun item => PyStr.nonempty (PyStr.strip (f item))) l)
  = map (fun x => PyStr.strip x)
        (filter (fun x => PyStr.nonempty (PyStr.strip x)) (map f l)).
Proof.
  induction l as [| a l IH]; simpl; [reflexivity |].
  destruct (PyStr.nonempty (PyStr.strip (f a))); simpl; now rewrite IH.
Qed.

Lemma normalize_joined `{py : Builtins} (xs : list string) :
  Forall (fun x => PyStr.has_comma x = false) xs ->
  _normalize_symptoms (VStr (PyStr.join_comma xs))
  = map PyStr.strip (filter (fun x => PyStr.nonempty (PyStr.strip x)) xs).
Proof.
  intros H. unfold _normalize_symptoms.
  destruct xs as [| x xs]; [reflexivity |].
  now rewrite (split_comma_join x xs H).
Qed.

(** The canonical list of a raw value, as one expression. *)
Lemma normalize_symptoms_shape `{py : Builtins} (raw : pyval) :
  exists l : list string,
    _normalize_symptoms raw
    = map PyStr.strip (filter (fun x => PyStr.nonempty (PyStr.strip x)) l)
    /\ (forall s, raw = VStr s -> l = PyStr.split_comma s).
Proof.
  destruct raw as [| b | z | f | s | l | d];
    try (exists []; split; [reflexivity | discriminate]).
  - exists (PyStr.split_comma s). split; [reflexivity |].
    intros s' H. now inversion H.
  - exists (map py_str l). split; [| discriminate].
    unfold _normalize_symptoms. apply (map_filter_strip py_str).
Qed.

(** X15. The canonical symptom list is canonical: every entry is trimmed
    and not empty, normalising the list again gives it back, and, when the
    raw value is a string, no entry holds a comma, so that the
    comma-joined canonical list normalises to itself too. *)
Theorem normalize_symptoms_canonical `{py : Builtins} (raw : pyval) :
  let canonical := _normalize_symptoms raw in
  (forall x, In x canonical -> x <> "" /\ PyStr.strip x = x)
  /\ _normalize_symptoms (VList (map VStr canonical)) = canonical
  /\ (forall s, raw = VStr s ->
        Forall (fun x => PyStr.has_comma x = false) canonical
        /\ _normalize_symptoms (VStr (PyStr.join_comma canonical))
           = canonical).
Proof.
  intros canonical.
  destruct (normalize_symptoms_shape raw) as (l & Hl & Hs).
  assert (Hfix : map PyStr.strip
                   (filter (fun x => PyStr.nonempty (PyStr.strip x)) canonical)
                 = canonical).
  { subst canonical. rewrite Hl.
    rewrite <- (map_id l) at 1 2.
    rewrite <- (map_filter_strip (fun x => x)).
    apply (canonical_entries PyStr.strip). apply strip_idem. }
  assert (Hlist : _normalize_symptoms (VList (map VStr canonical)) = canonical).
  { unfold _normalize_symptoms at 1. now rewrite filter_map_VStr. }
  split; [| split; [exact Hlist |]].
  - intros x Hx. subst canonical. rewrite Hl in Hx.
    apply in_map_iff in Hx as (y & <- & Hy). apply filter_In in Hy as [_ Hy].
    split; [| apply strip_idem].
    destruct (PyStr.strip y); [discriminate | discriminate].
  - intros s ->. specialize (Hs s eq_refl). subst l.
    assert (Hc : Forall (fun x => PyStr.has_comma x = false) canonical).
    { subst canonical. rewrite Hl. apply Forall_forall. intros x Hx.
      apply in_map_iff in Hx as (y & <- & Hy). apply filter_In in Hy as [Hy _].
      apply has_comma_strip.
      pose proof (split_comma_pieces s) as Hp. rewrite Forall_forall in Hp.
      now apply Hp. }
    split; [exact Hc |].
    rewrite (normalize_joined canonical Hc). exact Hfix.
Qed.

(** ** database.py: the stored texts *)

Lemma all_strings_map (ss : list string) : all_strings (map VStr ss) = Some ss.
Proof. induction ss as [| s ss IH]; simpl; [reflexivity | now rewrite IH]. Qed.

Lemma split_comma_space_join (x : string) (xs : list string) :
  Forall (fun y => PyStr.has_comma y = false) (x :: xs) ->
  PyStr.split_comma (str_join ", " (x :: xs))
  = x :: map (String " "%char) xs.
Proof.
  revert x. induction xs as [| y ys IH]; intros x H.
  - inversion H; subst. now apply split_comma_single.
  - inversion H as [| ? ? Hx Hrest]; subst.
    change (str_join ", " (x :: y :: ys))
      with (x ++ String PyStr.comma
                   (String " "%char (str_join ", " (y :: ys)))).
    rewrite (split_comma_app _ _ Hx).
    change (PyStr.split_comma (String " "%char (str_join ", " (y :: ys))))
      with (match PyStr.split_comma (str_join ", " (y :: ys)) with
            | [] => [String " "%char EmptyString]
            | w :: ws => String " "%char w :: ws
            end).
    now rewrite (IH y Hrest).
Qed.

Lemma strip_leading_space (y : string) :
  PyStr.strip (String " "%char y) = PyStr.strip y.
Proof. reflexivity. Qed.

Lemma canonical_leading_space (xs : list string) :
  map PyStr.strip
      (filter (fun x => PyStr.nonempty (PyStr.strip x))
              (map (String " "%char) xs))
  = map PyStr.strip (filter (fun x => PyStr.nonempty (PyStr.strip x)) xs).
Proof.
  induction xs as [| x xs IH]; [reflexivity |].
  cbn [map filter]. rewrite strip_leading_space.
  destruct (PyStr.nonempty (PyStr.strip x)); cbn [map];
    [rewrite strip_leading_space |]; now rewrite IH.
Qed.

(** X16. Storing the symptoms (or the conditions) of a report fails only
    on a list that holds an entry that is not a string, with [TypeError];
    and the text stored for a list of strings without commas reads back,
    through the normaliser, as the canonical list of that list. *)
Theorem stored_text_reads_back `{py : Builtins} (value : pyval) :
  (forall e, stored_text value = Raise e ->
     e = TypeError /\ exists l, value = VList l /\ all_strings l = None)
  /\ (forall ss, value = VList (map VStr ss) ->
        Forall (fun x => PyStr.has_comma x = false) ss ->
        exists text,
          stored_text value = Ok text
          /\ _normalize_symptoms (VStr text) = _normalize_symptoms value
          /\ _normalize_conditions (VStr text) = _normalize_conditions value).
Proof.
  split.
  - intros e. unfold stored_text.
    destruct value as [| b | z | f | s | l | d]; try discriminate.
    destruct (all_strings l) eqn:E; [discriminate |].
    intros H. inversion H. eauto.
  - intros ss -> Hc. unfold stored_text. rewrite all_strings_map.
    eexists. split; [reflexivity |].
    unfold _normalize_symptoms, _normalize_conditions.
    rewrite filter_map_VStr.
    destruct ss as [| x xs]; [split; reflexivity |].
    rewrite (split_comma_space_join x xs Hc).
    inversion Hc; subst.
    cbn [filter map].
    destruct (PyStr.nonempty (PyStr.strip x)); cbn [map];
      rewrite canonical_leading_space; split; reflexivity.
Qed.

Lemma stored_text_reads_back_witness :
  exists text,
    @symptoms_text ex_builtins medium_chest_pain = Ok text
    /\ @_normalize_symptoms ex_builtins (VStr text) = ["Chest Pain"].
Proof.
  destruct (proj2 (@stored_text_reads_back ex_builtins
                     (VList [VStr "Chest Pain"])) ["Chest Pain"] eq_refl)
    as (text & H1 & H2 & _).
  - repeat constructor.
  - exists text. split; [exact H1 | exact H2].
Defined.

(** ** Witnesses of earlier lemmas *)

(** X1. The summary is the default one (no visit, risk "Unknown", averages
    0, conditions "None") when the dataset is absent, when it has no
    [Patient_ID] column, and when none of its rows is a row of the
    patient. *)
Theorem ehr_summary_default_cases `{py : Builtins}
    (patient_id : Z) (source_df : option dataframe) :
  (source_df = None
   \/ (exists df, source_df = Some df
         /\ (~ In "Patient_ID" (df_columns df)
             \/ forall row, In row (df_rows df) ->
                  cell_eq_int (row_get (df_columns df) row "Patient_ID" VNone)
                              patient_id = false))) ->
  _extract_ehr_summary patient_id source_df
  = Ok {| past_visits := VInt 0;
          last_risk := VStr "Unknown";
          avg_bp := VInt 0;
          avg_heart_rate := VInt 0;
          chronic_conditions := VStr "None" |}.
Proof. apply extract_ehr_summary_default. Qed.

Lemma ehr_summary_default_cases_witness :
  @_extract_ehr_summary ex_builtins 42 (Some ehr_complete)
  = Ok _build_default_ehr_summary.
Proof.
  apply (@ehr_summary_default_cases ex_builtins 42 (Some ehr_complete)).
  right. exists ehr_complete. split; [reflexivity |]. right.
  intros row [<- | []]. reflexivity.
Defined.

(** ** The safety override on missing vital signs *)

Lemma safe_float_unreadable `{py : Builtins} (v : pyval) :
  unreadable v -> _safe_float v (VInt 0) = Ok (VInt 0).
Proof.
  unfold _safe_float.
  destruct v as [| b | z | f | s | l | d]; simpl; try contradiction;
    try reflexivity.
  intros H. now rewrite H.
Qed.

(** X17. A vital sign that is absent, null, a list, a dict or a string
    that [float] rejects counts as 0 in the safety override: when both the
    heart rate and the temperature are such, the override does not fire,
    whatever the risk. *)
Theorem safety_override_unreadable_vitals `{py : Builtins}
    (patient_input : pydict) (risk_label : string) :
  unreadable (get_default patient_input "Heart_Rate" VNone) ->
  unreadable (get_default patient_input "Temperature" VNone) ->
  safety_override patient_input risk_label = Ok false.
Proof.
  intros Hh Ht. unfold safety_override.
  destruct (String.eqb risk_label "High"); [| reflexivity].
  rewrite (safe_float_unreadable _ Hh). cbn [bind py_gt Z.gtb Z.compare].
  now rewrite (safe_float_unreadable _ Ht).
Qed.

Lemma safety_override_unreadable_vitals_witness :
  @safety_override ex_builtins malformed_numbers "High" = Ok false.
Proof.
  apply (@safety_override_unreadable_vitals ex_builtins malformed_numbers "High").
  - exact I.
  - exact I.
Defined.

(** ** Reports on which the pipeline returns *)

Lemma safe_float_number `{py : Builtins} (v : pyval) :
  number v -> int_in_range v -> exists f, _safe_float v (VInt 0) = Ok (VFloat f).
Proof.
  unfold _safe_float.
  destruct v as [| b | z | f | s | l | d]; simpl; try contradiction;
    intros _ H; try (eexists; reflexivity).
  apply Z.ltb_lt in H. rewrite H. eexists; reflexivity.
Qed.

Lemma safety_override_returns `{py : Builtins} (patient_input : pydict)
    (risk_label : string) (hr temp : pyval) :
  dict_get patient_input "Heart_Rate" = Some hr ->
  dict_get patient_input "Temperature" = Some temp ->
  number hr -> number temp -> int_in_range hr -> int_in_range temp ->
  exists b, safety_override patient_input risk_label = Ok b.
Proof.
  intros Hh Ht Nh Nt Rh Rt. unfold safety_override, get_default.
  rewrite Hh, Ht. destruct (String.eqb risk_label "High"); [| eauto].
  destruct (safe_float_number hr Nh Rh) as [fh ->].
  cbn [bind py_gt]. destruct (float_gt fh 130); [eauto |].
  destruct (safe_float_number temp Nt Rt) as [ft ->].
  cbn [bind py_gt]. eauto.
Qed.

Lemma In_select_columns (labels : list string) (df : frame)
    (kv : string * pyval) :
  In kv (select_columns df labels) -> In kv df /\ In (fst kv) labels.
Proof.
  unfold select_columns. intros H.
  apply in_flat_map in H as (c & Hc & H).
  apply filter_In in H as [H E]. apply String.eqb_eq in E. now subst.
Qed.

Lemma In_pad_columns (labels : list string) (df : frame)
    (kv : string * pyval) :
  In kv (pad_columns df labels) -> In kv df \/ snd kv = VInt 0.
Proof.
  revert df. induction labels as [| c labels IH]; intros df;
    cbn [pad_columns]; [auto |].
  intros H. apply IH in H as [H | H]; [| auto].
  destruct (mem c (columns df)); [auto |].
  apply in_app_or in H as [H | [<- | []]]; auto.
Qed.

Lemma In_symptoms_encoded `{art : Artefacts} (symptoms_list : list string)
    (kv : string * pyval) :
  In kv (symptoms_encoded symptoms_list) ->
  snd kv = VInt 0 \/ snd kv = VInt 1.
Proof.
  unfold symptoms_encoded. intros H.
  apply in_map_iff in H as (c & <- & _). simpl.
  destruct (mem c symptoms_list); auto.
Qed.

Lemma normalized_record_cell `{py : Builtins} (patient_input : pydict)
    (c : string) (v : pyval) :
  let raw k := get_default patient_input k VNone in
  NoDup (keys patient_input) ->
  In (c, v) (normalized_record patient_input) ->
  c = "Pre_Existing_Conditions"
  \/ v = VInt (truncated (normal_number (raw "Age")))
  \/ (exists k, In k ["Blood_Pressure"; "Heart_Rate"; "Temperature"]
                /\ v = normal_number (raw k))
  \/ (~ In c ("Symptoms" :: record_fields)
      /\ dict_get patient_input c = Some v).
Proof.
  intros raw Hnd Hin.
  destruct (normalized_record_keys patient_input Hnd) as [Hnd' _].
  apply (dict_get_In _ _ _ Hnd') in Hin.
  unfold normalized_record in Hin.
  rewrite !dict_get_set, dict_get_remove in Hin.
  destruct (String.eqb_spec c "Temperature") as [-> | N1].
  { inversion Hin. right; right; left. exists "Temperature".
    split; [simpl; tauto | reflexivity]. }
  destruct (String.eqb_spec c "Heart_Rate") as [-> | N2].
  { inversion Hin. right; right; left. exists "Heart_Rate".
    split; [simpl; tauto | reflexivity]. }
  destruct (String.eqb_spec c "Blood_Pressure") as [-> | N3].
  { inversion Hin. right; right; left. exists "Blood_Pressure".
    split; [simpl; tauto | reflexivity]. }
  destruct (String.eqb_spec c "Age") as [-> | N4].
  { inversion Hin. right; left. reflexivity. }
  destruct (String.eqb_spec c "Pre_Existing_Conditions") as [-> | N5];
    [now left |].
  destruct (String.eqb_spec c "Symptoms") as [-> | N6]; [discriminate |].
  right; right; right. split; [| exact Hin].
  simpl. intuition congruence.
Qed.

(** X4. On a well-formed report the fitted models are handed a row of
    their declared schema and the pipeline returns a prediction. The report
    is a dict with distinct keys; its [Gender] can be hashed; its heart
    rate and its temperature are numbers; its numeric fields and its
    patient identifier convert (no integer beyond the range of the floats,
    no infinite or NaN age or identifier); the age, the three vital signs
    and every other key that is a declared column hold, once normalised, an
    integer or a finite float of magnitude at most 2^127; no declared
    symptom of the duplicate-free vocabulary is a key of the report or a
    field written by normalisation; symptoms and conditions are each
    absent, a list, a string or a dict; and the summary of that patient
    returns. Then [preprocess] returns a row whose columns are exactly the
    declared list, in its order, every cell of which is such a number, and
    the pipeline, whose fitted models are taken to answer on such a row,
    returns. *)
Theorem predict_patient_total `{py : Builtins} `{art : Artefacts}
    (patient_input : pydict) (ehr_source_df : option dataframe)
    (g hr temp : pyval) :
  let raw k := get_default patient_input k VNone in
  NoDup (keys patient_input) ->
  dict_get patient_input "Gender" = Some g -> hashable g = true ->
  dict_get patient_input "Heart_Rate" = Some hr -> number hr ->
  dict_get patient_input "Temperature" = Some temp -> number temp ->
  (forall k, In k ("Patient_ID" :: numeric_fields) -> int_in_range (raw k)) ->
  finite_number (normal_number (raw "Age")) ->
  finite_number (normal_number (raw "Patient_ID")) ->
  model_cell (VInt (truncated (normal_number (raw "Age")))) ->
  (forall k, In k ["Blood_Pressure"; "Heart_Rate"; "Temperature"] ->
             model_cell (normal_number (raw k))) ->
  (forall k v, dict_get patient_input k = Some v -> In k feature_names_in_ ->
               ~ In k ("Gender" :: "Symptoms" :: record_fields) ->
               model_cell v) ->
  NoDup symptom_classes ->
  (forall c, In c symptom_classes -> In c feature_names_in_ ->
             ~ In c (keys patient_input) /\ ~ In c record_fields) ->
  container (get_default patient_input "Symptoms" (VList [])) ->
  container (get_default patient_input "Pre_Existing_Conditions" (VList [])) ->
  (exists s,
      _extract_ehr_summary (truncated (normal_number (raw "Patient_ID")))
        (Some match ehr_source_df with Some d => d | None => ehr_df end)
      = Ok s) ->
  exists df res,
    preprocess patient_input = Ok df
    /\ columns df = feature_names_in_
    /\ (forall c v, In (c, v) df -> model_cell v)
    /\ predict_patient patient_input ehr_source_df = Ok res.
Proof.
  intros raw Hnd Hg Hh Hhr Nhr Ht Nt Hrange Hage Hpid Mage Mvitals Mother
         Hcl Hclash Hs Hc [s Hehr].
  assert (Hrange' : forall k, In k numeric_fields -> int_in_range (raw k))
    by (intros k Hk; apply Hrange; now right).
  assert (Hpre : exists df, preprocess patient_input = Ok df
                            /\ columns df = feature_names_in_).
  { unfold preprocess.
    rewrite (preprocess_normalize_run _ Hrange' Hage). cbn [bind fst snd].
    rewrite (get_dummies_run _ _ g Hnd Hg Hh). cbn [bind].
    eexists. split; [reflexivity |].
    apply pad_select_columns. intros c Hin.
    destruct (normalized_record_keys patient_input Hnd) as [Hnd' Hincl].
    unfold columns.
    rewrite (keys_filter
               (fun k => negb (mem k ["Gender"; "Pre_Existing_Conditions"]))).
    eapply Nat.le_trans; [apply count_occ_filter_le |].
    unfold keys. rewrite map_app, count_occ_app.
    fold (keys (normalized_record patient_input)).
    change (map fst (symptoms_encoded ?l)) with (columns (symptoms_encoded l)).
    rewrite symptoms_encoded_columns.
    pose proof (proj1 (NoDup_count_occ string_dec _) Hnd' c) as Hk.
    pose proof (proj1 (NoDup_count_occ string_dec _) Hcl c) as Hsy.
    destruct (in_dec string_dec c symptom_classes) as [Hi | Hni].
    - destruct (Hclash c Hi Hin) as [Hn1 Hn2].
      assert (Hz : count_occ string_dec
                     (keys (normalized_record patient_input)) c = 0%nat).
      { apply count_occ_not_In. intros Hk'.
        destruct (Hincl c Hk'); contradiction. }
      lia.
    - apply (count_occ_not_In string_dec) in Hni. lia. }
  destruct Hpre as (df & Hdf & Hcols).
  assert (Hcells : forall c v, In (c, v) df -> model_cell v).
  { intros c v Hin. pose proof (preprocess_Ok _ _ Hdf) as E.
    rewrite E in Hin. apply In_select_columns in Hin as [Hin Hdecl].
    cbn [fst] in Hdecl.
    apply In_pad_columns in Hin as [Hin | Hv];
      [| cbn [snd] in Hv; subst v; simpl; unfold single_bound; lia].
    apply filter_In in Hin as [Hin Hkeep]. cbn [fst] in Hkeep.
    apply in_app_or in Hin as [Hin | Hin].
    - apply (normalized_record_cell _ _ _ Hnd) in Hin
        as [-> | [-> | [(k & Hk & ->) | [Hf Hget]]]].
      + discriminate.
      + exact Mage.
      + now apply Mvitals.
      + apply (Mother c v Hget Hdecl). intros [<- | Hf']; [| tauto].
        discriminate.
    - apply In_symptoms_encoded in Hin as [Hv | Hv]; cbn [snd] in Hv;
        subst v; simpl; unfold single_bound; lia. }
  assert (Rh : int_in_range hr).
  { specialize (Hrange "Heart_Rate" ltac:(simpl; tauto)).
    unfold raw, get_default in Hrange. now rewrite Hhr in Hrange. }
  assert (Rt : int_in_range temp).
  { specialize (Hrange "Temperature" ltac:(simpl; tauto)).
    unfold raw, get_default in Hrange. now rewrite Ht in Hrange. }
  destruct (recommend_department_returns patient_input (risk_label_of df) Hs Hc)
    as (routed & Hrouted).
  { intros _. exists hr, temp. tauto. }
  destruct (safety_override_returns patient_input (risk_label_of df) hr temp
              Hhr Ht Nhr Nt Rh Rt) as [override Hoverride].
  destruct (predict_patient_returns patient_input ehr_source_df df
              (normal_number (raw "Patient_ID"))
              (truncated (normal_number (raw "Patient_ID"))) s routed override)
    as (res & Hres & _); try assumption.
  - apply safe_float_normal. apply Hrange. now left.
  - now apply py_int_normal.
  - exists df, res. auto.
Qed.

Lemma predict_patient_total_witness :
  exists df res,
    @preprocess ex_builtins ex_artefacts_single vitals_as_numbers = Ok df
    /\ columns df = ["Age"; "Fever"]
    /\ (forall c v, In (c, v) df -> model_cell v)
    /\ @predict_patient ex_builtins ex_artefacts_single vitals_as_numbers
         (Some ehr_complete) = Ok res.
Proof.
  apply (@predict_patient_total ex_builtins ex_artefacts_single
           vitals_as_numbers (Some ehr_complete)
           (VStr "Male") (VInt 150) (VInt 99)); try reflexivity;
    try exact I.
  - repeat constructor; simpl; intuition discriminate.
  - intros k Hk. simpl in Hk.
    destruct Hk as [<- | [<- | [<- | [<- | [<- | []]]]]];
      first [exact I | reflexivity].
  - vm_compute. discriminate.
  - intros k Hk. simpl in Hk.
    destruct Hk as [<- | [<- | [<- | []]]]; vm_compute; discriminate.
  - intros k v Hget Hk Hn. simpl in Hk.
    destruct Hk as [<- | [<- | []]]; [| discriminate].
    exfalso. apply Hn. simpl. tauto.
  - repeat constructor; simpl; tauto.
  - intros c Hc _. simpl in Hc. destruct Hc as [<- | []].
    split; simpl; intuition discriminate.
  - eexists. reflexivity.
Defined.

(** ** What the encoded row keeps of the symptoms *)

Lemma dict_remove_set_same (d : pydict) (k : string) (v : pyval) :
  dict_remove (dict_set d k v) k = dict_remove d k.
Proof.
  unfold dict_remove. induction d as [| [k0 v0] d IH]; simpl.
  - now rewrite String.eqb_refl.
  - destruct (String.eqb_spec k k0) as [-> | Hne]; simpl.
    + now rewrite String.eqb_refl.
    + destruct (String.eqb_spec k k0); [contradiction |]. simpl.
      now rewrite IH.
Qed.

Lemma dict_remove_idem (d : pydict) (k : string) :
  dict_remove (dict_remove d k) k = dict_remove d k.
Proof.
  unfold dict_remove. induction d as [| [k0 v0] d IH]; simpl; [reflexivity |].
  destruct (String.eqb k k0) eqn:E; simpl; [exact IH |].
  rewrite E. simpl. now rewrite IH.
Qed.

Lemma preprocess_normalize_symptoms `{py : Builtins} (patient_input : pydict) :
  preprocess_normalize patient_input
  = match preprocess_normalize (dict_remove patient_input "Symptoms") with
    | Ok (_, p) =>
        Ok (_normalize_symptoms
              (get_default patient_input "Symptoms" (VList [])), p)
    | Raise e => Raise e
    end.
Proof.
  unfold preprocess_normalize. cbv zeta.
  rewrite dict_remove_idem. dict_simpl_goal.
  destruct (_safe_float (get_default patient_input "Age" VNone) (VInt 0))
    as [age_f | e]; cbn [bind]; [| reflexivity].
  destruct (py_int age_f) as [age | e]; cbn [bind]; [| reflexivity].
  dict_simpl_goal.
  destruct (_safe_float (get_default patient_input "Blood_Pressure" VNone)
                        (VInt 0)) as [bp | e]; cbn [bind]; [| reflexivity].
  dict_simpl_goal.
  destruct (_safe_float (get_default patient_input "Heart_Rate" VNone)
                        (VInt 0)) as [hr | e]; cbn [bind]; [| reflexivity].
  dict_simpl_goal.
  destruct (_safe_float (get_default patient_input "Temperature" VNone)
                        (VInt 0)) as [temp | e]; cbn [bind]; reflexivity.
Qed.

Lemma symptoms_encoded_ext `{art : Artefacts} (l1 l2 : list string) :
  (forall c, In c symptom_classes -> mem c l1 = mem c l2) ->
  symptoms_encoded l1 = symptoms_encoded l2.
Proof.
  intros H. unfold symptoms_encoded. apply map_ext_in.
  intros c Hc. now rewrite (H c Hc).
Qed.

(** X10. The encoded row keeps of the symptoms only which symptoms of the
    vocabulary occur in the canonical list: two values of [Symptoms] whose
    canonical lists hold the same vocabulary symptoms (a list or its
    comma-separated text, in any order, with repetitions or with symptoms
    outside the vocabulary) are encoded alike. *)
Theorem preprocess_symptoms_membership `{py : Builtins} `{art : Artefacts}
    (patient_input : pydict) (s1 s2 : pyval) :
  (forall c, In c symptom_classes ->
     mem c (_normalize_symptoms s1) = mem c (_normalize_symptoms s2)) ->
  preprocess (dict_set patient_input "Symptoms" s1)
  = preprocess (dict_set patient_input "Symptoms" s2).
Proof.
  intros H. unfold preprocess.
  rewrite (preprocess_normalize_symptoms (dict_set patient_input "Symptoms" s1)).
  rewrite (preprocess_normalize_symptoms (dict_set patient_input "Symptoms" s2)).
  rewrite !dict_remove_set_same, !get_default_set. cbn [String.eqb Ascii.eqb Bool.eqb].
  destruct (preprocess_normalize (dict_remove patient_input "Symptoms"))
    as [[s p] | e]; cbn [bind fst snd]; [| reflexivity].
  now rewrite (symptoms_encoded_ext _ _ H).
Qed.

Lemma preprocess_symptoms_membership_witness :
  @preprocess ex_builtins ex_artefacts_single
     (dict_set malformed_numbers "Symptoms" (VStr "Cough, Fever , Fever"))
  = @preprocess ex_builtins ex_artefacts_single
      (dict_set malformed_numbers "Symptoms"
                (VList [VStr "Fever"; VStr "Headache"])).
Proof.
  apply (@preprocess_symptoms_membership ex_builtins ex_artefacts_single).
  intros c [<- | []]. reflexivity.
Defined.
